(** * AbrO HR platform: attendance ingestion and attrition-risk scoring

    A shallow embedding of two services of the backend:

    - [AttritionEngine]: the attrition engine (calculateAttritionRisk,
      its four sub-scores, determineRiskLevel, generateAttritionReport);
    - [FileParser]: the upload validator (FileParserService,
      validateAndNormalize).

    JavaScript numbers are read as real numbers, with exact arithmetic,
    where a score is one quotient of two counts compared with literals.
    The recent trend subtracts two such quotients, and there the rounding
    of IEEE-754 doubles decides the band: it is computed on binary64
    floats.  Timestamps are integers (milliseconds since the epoch), as
    [Date.prototype.getTime] returns them.  Strings are ASCII. *)

From Stdlib Require Import Floats Uint63.
From Stdlib Require Import List String Ascii ZArith QArith Qreals Reals Lra Lia Bool.
From Stdlib Require Import Permutation Sorted DecimalString.
Import ListNotations.

Set Warnings "-inexact-float".

Close Scope Q_scope.
Close Scope float_scope.
Close Scope uint63_scope.
Open Scope string_scope.
Open Scope list_scope.

(** ** Results of code that may throw *)

Inductive result (A : Type) : Type :=
| Ok (value : A)
| Throw (message : string).

Arguments Ok {A} value.
Arguments Throw {A} message.

(** ** Numbers *)

Module JsNumber.

Open Scope R_scope.

(** [x >= y] and [x > y] on numbers, as booleans. *)
Definition geb (x y : R) : bool := if Rle_dec y x then true else false.
Definition gtb (x y : R) : bool := if Rlt_dec y x then true else false.

(** [Math.round]: the nearest integer, ties toward plus infinity. *)
Definition Math_round (x : R) : Z := Zfloor (x + 1 / 2).

(** [Math.round(x * 10) / 10]. *)
Definition round1 (x : R) : R := IZR (Math_round (x * 10)) / 10.

(** The double that holds a count (a length, an index). *)
Definition ofNat (n : nat) : float := PrimFloat.of_uint63 (Uint63.of_Z (Z.of_nat n)).

(** The rational a finite double stands for (0 for NaN and the
    infinities, which no computation below produces). *)
Definition value (x : float) : Q :=
  match Prim2SF x with
  | S754_finite s m e =>
      let magnitude :=
        match e with
        | Z0 => Qmake (Zpos m) 1
        | Zpos k => Qmake (Zpos m * Z.pow_pos 2 k) 1
        | Zneg k => Qmake (Zpos m) (Pos.pow 2 k)
        end in
      Qred (if s then Qopp magnitude else magnitude)
  | _ => 0%Q
  end.

(** [x.toFixed(2)] for a finite double that is not negative, given as
    the integer [n] whose two-place rendering [n / 100] the method
    prints: the one nearest to the number the double stands for, the
    larger on a tie. *)
Definition toFixed2 (x : float) : Z :=
  let hundredths := (value x * Qmake 100 1 + Qmake 1 2)%Q in
  (Qnum hundredths / Zpos (Qden hundredths))%Z.

(** A double read as a real number. *)
Definition toReal (x : float) : R := Q2R (value x).

(** [`${n}`] for an integer. *)
Definition string_of_Z (n : Z) : string := NilZero.string_of_int (Z.to_int n).

End JsNumber.

(** ** Arrays *)

Module JsArray.

(** A relative index of [Array.prototype.slice]: a negative one counts
    from the end, and both are clamped to the array. *)
Definition relIndex (len k : Z) : Z :=
  if (k <? 0)%Z then Z.max (len + k) 0 else Z.min k len.

(** [l.slice(start)] is [slice l start None] and [l.slice(start, e)] is
    [slice l start (Some e)]. *)
Definition slice {A : Type} (l : list A) (start : Z) (end_ : option Z) : list A :=
  let len := Z.of_nat (List.length l) in
  let k := relIndex len start in
  let final := match end_ with None => len | Some e => relIndex len e end in
  firstn (Z.to_nat (final - k)) (skipn (Z.to_nat k) l).

(** A stable sort: [before a b] holds when the comparator puts [a]
    strictly before [b]; elements that compare equal keep their order. *)
Fixpoint insertBy {A : Type} (before : A -> A -> bool) (x : A) (l : list A) : list A :=
  match l with
  | [] => [x]
  | y :: l' => if before y x then y :: insertBy before x l' else x :: y :: l'
  end.

Fixpoint sortBy {A : Type} (before : A -> A -> bool) (l : list A) : list A :=
  match l with
  | [] => []
  | x :: l' => insertBy before x (sortBy before l')
  end.

(** [l.join(sep)] on strings. *)
Fixpoint join (sep : string) (l : list string) : string :=
  match l with
  | [] => ""
  | [x] => x
  | x :: l' => (x ++ sep ++ join sep l')%string
  end.

(** [l.includes(x)] on strings. *)
Definition includes (l : list string) (x : string) : bool :=
  existsb (String.eqb x) l.

End JsArray.

(** ** The attrition engine (services/attritionEngine) *)

Module AttritionEngine.

Import JsNumber JsArray.
Open Scope R_scope.

(** An attendance row of the store, as far as the engine reads it. *)
Record Attendance : Type := mkAttendance {
  date : Z;
  status : string
}.

(** An employee of the store with the attendance rows it owns. *)
Record Employee : Type := mkEmployee {
  id : string;
  employeeId : string;
  name : string;
  email : string;
  companyId : string;
  attendance : list Attendance
}.

(** The store behind [prisma.employee]. *)
Definition Store : Type := list Employee.

Definition hasStatus (s : string) (r : Attendance) : bool :=
  String.eqb (status r) s.

(** [records.filter(r => r.status === s).length] *)
Definition countStatus (s : string) (records : list Attendance) : nat :=
  List.length (filter (hasStatus s) records).

Definition isLeave (r : Attendance) : bool :=
  hasStatus "Planned Leave" r || hasStatus "Unplanned Leave" r.

(** calculateAbsenteeismScore.  On an empty array the source divides 0
    by 0; its only caller never passes one. *)
Definition calculateAbsenteeismScore (records : list Attendance) : R :=
  let totalDays := List.length records in
  let absentDays := countStatus "Absent" records in
  let absentRate := INR absentDays / INR totalDays in
  if geb absentRate 0.20 then 100
  else if geb absentRate 0.15 then 85
  else if geb absentRate 0.10 then 65
  else if geb absentRate 0.05 then 40
  else absentRate * 800.

(** calculateLeavePatternScore *)
Definition calculateLeavePatternScore (records : list Attendance) : R :=
  let totalLeaves := List.length (filter isLeave records) in
  if Nat.eqb totalLeaves 0 then 0
  else
    let unplannedLeaves := countStatus "Unplanned Leave" records in
    let unplannedRatio := INR unplannedLeaves / INR totalLeaves in
    if geb unplannedRatio 0.80 then 90
    else if geb unplannedRatio 0.60 then 70
    else if geb unplannedRatio 0.40 then 50
    else if geb unplannedRatio 0.20 then 30
    else unplannedRatio * 100.

(** The absent rate of one group of rows. *)
Definition absentRateOf (rows : list Attendance) : R :=
  INR (countStatus "Absent" rows) / INR (List.length rows).

(** The [forEach] of calculateConsistencyScore: [index] is the position
    of the head of [records] in the whole array of length [len];
    [currentWeek] and [weeklyRates] are the two accumulators. *)
Fixpoint weeklyLoop (records : list Attendance) (index len : nat)
    (currentWeek : list Attendance) (weeklyRates : list R) : list R :=
  match records with
  | [] => weeklyRates
  | record :: rest =>
      let currentWeek := currentWeek ++ [record] in
      if Nat.eqb (List.length currentWeek) 5 || Nat.eqb index (len - 1) then
        weeklyLoop rest (S index) len [] (weeklyRates ++ [absentRateOf currentWeek])
      else
        weeklyLoop rest (S index) len currentWeek weeklyRates
  end.

Definition weeklyRatesOf (records : list Attendance) : list R :=
  weeklyLoop records 0 (List.length records) [] [].

(** calculateConsistencyScore *)
Definition calculateConsistencyScore (records : list Attendance) : R :=
  let weeklyRates := weeklyRatesOf records in
  if Nat.ltb (List.length weeklyRates) 2 then 0
  else
    let mean := fold_left (fun a b => a + b) weeklyRates 0
                / INR (List.length weeklyRates) in
    let variance := fold_left (fun sum rate => sum + (rate - mean) ^ 2) weeklyRates 0
                    / INR (List.length weeklyRates) in
    let stdDev := sqrt variance in
    Rmin (stdDev * 200) 100.

(** calculateRecentTrendScore, on doubles as the source computes it. *)
Definition trendScoreDouble (records : list Attendance) : float :=
  if Nat.ltb (List.length records) 20 then 0%float
  else
    let recentRecords := slice records (-15) None in
    let previousRecords := slice records (-30) (Some (-15)%Z) in
    let recentAbsentRate :=
      (ofNat (countStatus "Absent" recentRecords)
       / ofNat (List.length recentRecords))%float in
    let previousAbsentRate :=
      (ofNat (countStatus "Absent" previousRecords)
       / ofNat (List.length previousRecords))%float in
    let trend := (recentAbsentRate - previousAbsentRate)%float in
    if (0.15 <=? trend)%float then 100%float
    else if (0.10 <=? trend)%float then 75%float
    else if (0.05 <=? trend)%float then 50%float
    else if (0 <? trend)%float then (trend * 500)%float
    else 0%float.

(** The number calculateRecentTrendScore returns. *)
Definition calculateRecentTrendScore (records : list Attendance) : R :=
  toReal (trendScoreDouble records).

(** determineRiskLevel *)
Definition determineRiskLevel (score : R) : string :=
  if geb score 70 then "High"
  else if geb score 40 then "Moderate"
  else "Low".

Record Statistics : Type := mkStatistics {
  totalDays : nat;
  presentDays : nat;
  absentDays : nat;
  plannedLeaveDays : nat;
  unplannedLeaveDays : nat;
  attendanceRate : Z;    (* hundredths of a percent, printed with '%' *)
  absenteeismRate : Z
}.

(** calculateStatistics *)
Definition calculateStatistics (records : list Attendance) : Statistics :=
  let total := List.length records in
  let present := countStatus "Present" records in
  let absent := countStatus "Absent" records in
  let plannedLeave := countStatus "Planned Leave" records in
  let unplannedLeave := countStatus "Unplanned Leave" records in
  {| totalDays := total;
     presentDays := present;
     absentDays := absent;
     plannedLeaveDays := plannedLeave;
     unplannedLeaveDays := unplannedLeave;
     attendanceRate := toFixed2 (ofNat present / ofNat total * 100)%float;
     absenteeismRate := toFixed2 (ofNat absent / ofNat total * 100)%float |}.

(** generateRecommendation *)
Definition generateRecommendation (riskLevel : string) (score : R) : string :=
  if String.eqb riskLevel "High" then
    "URGENT: Schedule immediate 1-on-1 meeting. Investigate causes of absenteeism. Consider retention strategies."
  else if String.eqb riskLevel "Moderate" then
    "MONITOR: Regular check-ins recommended. Address any workplace concerns proactively."
  else
    "LOW RISK: Continue standard engagement practices. Employee shows stable attendance.".

(** The object calculateAttritionRisk returns.  The short-circuit
    return has no [email] and no [statistics] key and an empty
    [factors] object. *)
Record Assessment : Type := mkAssessment {
  a_employeeId : string;
  a_name : string;
  a_email : option string;
  score : R;
  riskLevel : string;
  factors : list (string * R);
  statistics : option Statistics;
  recommendation : string
}.

Section Engine.

(** [monthsBefore now months] is the timestamp of the date that
    [d.setMonth(d.getMonth() - months)] leaves in [d = new Date(now)]:
    the calendar arithmetic of the host. *)
Variable monthsBefore : Z -> Z -> Z.

(** [prisma.employee.findUnique] of calculateAttritionRisk: the employee
    with this [id], its attendance restricted to the window and ordered
    by date. *)
Definition findUnique (db : Store) (key : string) (startDate endDate : Z)
  : option Employee :=
  match find (fun e => String.eqb (id e) key) db with
  | None => None
  | Some e =>
      let inWindow r := ((startDate <=? date r) && (date r <=? endDate))%Z in
      let ordered := sortBy (fun a b => (date a <? date b)%Z)
                            (filter inWindow (attendance e)) in
      Some (mkEmployee (id e) (employeeId e) (name e) (email e) (companyId e) ordered)
  end.

(** calculateAttritionRisk, with the four sub-score functions it calls
    taken as arguments; [now] is the reading of the clock. *)
Definition calculateAttritionRiskWith
    (absenteeism leavePattern consistency recentTrend : list Attendance -> R)
    (db : Store) (now : Z) (key : string) (months : Z) : result Assessment :=
  let endDate := now in
  let startDate := monthsBefore now months in
  match findUnique db key startDate endDate with
  | None => Throw "Employee not found"
  | Some employee =>
      let attendanceRecords := attendance employee in
      if Nat.eqb (List.length attendanceRecords) 0 then
        Ok {| a_employeeId := employeeId employee;
              a_name := name employee;
              a_email := None;
              score := 0;
              riskLevel := "Insufficient Data";
              factors := [];
              statistics := None;
              recommendation := "Need at least 3 months of attendance data" |}
      else
        let absenteeismScore := absenteeism attendanceRecords in
        let leavePatternScore := leavePattern attendanceRecords in
        let consistencyScore := consistency attendanceRecords in
        let recentTrendScore := recentTrend attendanceRecords in
        let compositeScore :=
          absenteeismScore * 0.35 +
          leavePatternScore * 0.25 +
          consistencyScore * 0.25 +
          recentTrendScore * 0.15 in
        let riskLevel := determineRiskLevel compositeScore in
        Ok {| a_employeeId := employeeId employee;
              a_name := name employee;
              a_email := Some (email employee);
              score := round1 compositeScore;
              riskLevel := riskLevel;
              factors := [ ("absenteeism", round1 absenteeismScore);
                           ("leavePattern", round1 leavePatternScore);
                           ("consistency", round1 consistencyScore);
                           ("recentTrend", round1 recentTrendScore) ];
              statistics := Some (calculateStatistics attendanceRecords);
              recommendation := generateRecommendation riskLevel compositeScore |}
  end.

Definition calculateAttritionRisk : Store -> Z -> string -> Z -> result Assessment :=
  calculateAttritionRiskWith
    calculateAbsenteeismScore calculateLeavePatternScore
    calculateConsistencyScore calculateRecentTrendScore.

(** The composite score of a non-empty array of rows, before rounding. *)
Definition compositeScore (records : list Attendance) : R :=
  calculateAbsenteeismScore records * 0.35 +
  calculateLeavePatternScore records * 0.25 +
  calculateConsistencyScore records * 0.25 +
  calculateRecentTrendScore records * 0.15.

Record Summary : Type := mkSummary {
  high : nat;
  moderate : nat;
  low : nat
}.

Record Report : Type := mkReport {
  r_companyId : string;
  generatedAt : Z;
  period : string;
  totalEmployees : nat;
  summary : Summary;
  employees : list Assessment
}.

Definition hasLevel (level : string) (r : Assessment) : bool :=
  String.eqb (riskLevel r) level.

(** The [for ... of] of generateAttritionReport: an employee whose
    scoring throws is logged and left out. *)
Definition collectResults (db : Store) (now : Z) (months : Z)
    (found : list Employee) : list Assessment :=
  fold_left
    (fun results employee =>
       match calculateAttritionRisk db now (id employee) months with
       | Ok risk => results ++ [risk]
       | Throw _ => results
       end)
    found [].

(** generateAttritionReport.  The clock is read once, as [now]. *)
Definition generateAttritionReport (db : Store) (now : Z)
    (company : string) (months : Z) : Report :=
  let found := filter (fun e => String.eqb (companyId e) company) db in
  let results := collectResults db now months found in
  let results := sortBy (fun a b => gtb (score a) (score b)) results in
  {| r_companyId := company;
     generatedAt := now;
     period := (string_of_Z months ++ " months")%string;
     totalEmployees := List.length found;
     summary := {| high := List.length (filter (hasLevel "High") results);
                   moderate := List.length (filter (hasLevel "Moderate") results);
                   low := List.length (filter (hasLevel "Low") results) |};
     employees := results |}.

End Engine.

End AttritionEngine.

(** ** Strings *)

Module JsString.

(** A string is the sequence of its UTF-16 code units, each below 256
    here (text of the Latin-1 range), so that [String.length] is the
    [length] of the source. *)

(** White space, for [trim] and the class [\s]: space, tab, line feed,
    vertical tab, form feed, carriage return and the no-break space. *)
Definition isSpace (c : ascii) : bool :=
  let n := nat_of_ascii c in
  Nat.eqb n 32 || (Nat.leb 9 n && Nat.leb n 13) || Nat.eqb n 160.

Fixpoint trimStart (s : string) : string :=
  match s with
  | EmptyString => EmptyString
  | String c s' => if isSpace c then trimStart s' else s
  end.

Fixpoint trimEnd (s : string) : string :=
  match s with
  | EmptyString => EmptyString
  | String c s' =>
      let t := trimEnd s' in
      if isSpace c && String.eqb t "" then "" else String c t
  end.

(** [s.trim()] *)
Definition trim (s : string) : string := trimEnd (trimStart s).

Definition lowerChar (c : ascii) : ascii :=
  let n := nat_of_ascii c in
  if (Nat.leb 65 n && Nat.leb n 90)
     || (Nat.leb 192 n && Nat.leb n 222 && negb (Nat.eqb n 215))
  then ascii_of_nat (n + 32) else c.

(** [s.toLowerCase()] *)
Fixpoint toLowerCase (s : string) : string :=
  match s with
  | EmptyString => EmptyString
  | String c s' => String (lowerChar c) (toLowerCase s')
  end.

(** A property read inside a template literal: [`${v}`]. *)
Definition interpolate (v : option string) : string :=
  match v with
  | Some s => s
  | None => "undefined"
  end.

(** [!v] for a value that is a string or [undefined]. *)
Definition falsy (v : option string) : bool :=
  match v with
  | Some s => String.eqb s ""
  | None => true
  end.

End JsString.

(** ** The upload validator (FileParserService) *)

Module FileParser.

Import JsArray JsString.

(** A record of the parsed file: the cells of one line under the names
    of the header.  Every cell is a string, as the CSV reader yields
    them and as a sheet of text cells does; a sheet with number cells
    is outside this type. *)
Definition Row : Type := list (string * string).

(** [record[key]]; [None] is [undefined]. *)
Fixpoint get (record : Row) (key : string) : option string :=
  match record with
  | [] => None
  | (k, v) :: rest => if String.eqb k key then Some v else get rest key
  end.

(** [Object.keys(record)] *)
Definition keys (record : Row) : list string := map fst record.

(** A [Date] object: a time value, or Invalid Date. *)
Inductive JsDate : Type :=
| DateOf (time : Z)
| InvalidDate.

Definition REQUIRED_COLUMNS : list string :=
  [ "employee_id"; "employee_name"; "date"; "status";
    "informed_time"; "department"; "manager_email" ].

Definition VALID_STATUSES : list string :=
  [ "Present"; "Planned Leave"; "Unplanned Leave"; "Absent" ].

(** The entries of [errors]: about a line of the file, or about an
    employee. *)
Inductive ErrorEntry : Type :=
| RowError (row : nat) (errors : list string)
| EmployeeError (employee : string) (errors : list string).

(** A normalized record of [validRecords]; [informedTime] is [None]
    for [null]. *)
Record ValidRecord : Type := mkValidRecord {
  employeeId : string;
  employeeName : string;
  date : JsDate;
  status : string;
  informedTime : option JsDate;
  department : string;
  managerEmail : string
}.

Record ParseResult : Type := mkParseResult {
  valid : bool;
  validRecords : list ValidRecord;
  invalidRecords : nat;
  errors : list ErrorEntry
}.

(** *** The email pattern [/^[^\s@]+@[^\s@]+\.[^\s@]+$/] *)

(** The class [[^\s@]]. *)
Definition plainChar (c : ascii) : bool :=
  negb (isSpace c || Ascii.eqb c "@").

(** [[^\s@]+$] *)
Fixpoint matchTail (s : string) : bool :=
  match s with
  | EmptyString => false
  | String c s' =>
      plainChar c && (match s' with EmptyString => true | _ => matchTail s' end)
  end.

(** [[^\s@]+\.[^\s@]+$] *)
Fixpoint matchDomain (s : string) : bool :=
  match s with
  | EmptyString => false
  | String c s' =>
      plainChar c &&
      (matchDomain s' ||
       match s' with String "." rest => matchTail rest | _ => false end)
  end.

(** [^[^\s@]+@[^\s@]+\.[^\s@]+$] *)
Fixpoint emailRegexTest (s : string) : bool :=
  match s with
  | EmptyString => false
  | String c s' =>
      plainChar c &&
      (emailRegexTest s' ||
       match s' with String "@" rest => matchDomain rest | _ => false end)
  end.

(** *** Per-row validation *)

(** The state the [forEach] over the records works on. *)
Record State : Type := mkState {
  s_errors : list ErrorEntry;
  s_validRecords : list ValidRecord;
  s_seenKeys : list string
}.

(** [a > b] on two dates; a comparison with Invalid Date is false. *)
Definition dateGt (a b : JsDate) : bool :=
  match a, b with
  | DateOf x, DateOf y => (y <? x)%Z
  | _, _ => false
  end.

(** [Math.abs(parsedDate - informedDate) / (1000 * 60 * 60)];
    [None] is NaN. *)
Definition hoursBetween (parsedDate : JsDate) (informed : Z) : option Q :=
  match parsedDate with
  | DateOf p => Some ((Z.abs (p - informed) # 1) / (1000 * 60 * 60))%Q
  | InvalidDate => None
  end.

(** [timeDiff > 24] *)
Definition exceeds24 (timeDiff : option Q) : bool :=
  match timeDiff with
  | Some h => negb (Qle_bool h 24)
  | None => false
  end.

(** [record.status === s] *)
Definition statusIs (record : Row) (s : string) : bool :=
  match get record "status" with
  | Some x => String.eqb x s
  | None => false
  end.

(** The text of a cell that is known to be present. *)
Definition text (v : option string) : string :=
  match v with
  | Some s => s
  | None => ""
  end.

Section Validation.

(** The host's date functions.  [parseDate v] is
    [parseDate(v, 'yyyy-MM-dd', new Date())] of date-fns, Invalid Date
    also where the call throws (the [catch] reports the same message and
    the row is rejected either way); [isWeekend] is date-fns' test on a
    valid date; [newDate s] is [new Date(s)]. *)
Variable parseDate : option string -> JsDate.
Variable isWeekend : Z -> bool.
Variable newDate : string -> JsDate.

(** The common shape of the employee_id, employee_name and department
    checks. *)
Definition requiredField (v : option string) (limit : nat)
    (required tooLong : string) : list string :=
  if falsy v || String.eqb (trim (text v)) "" then [required]
  else if Nat.ltb limit (String.length (text v)) then [tooLong]
  else [].

Definition employeeIdErrors (record : Row) : list string :=
  requiredField (get record "employee_id") 20
    "employee_id is required" "employee_id must be max 20 characters".

Definition employeeNameErrors (record : Row) : list string :=
  requiredField (get record "employee_name") 100
    "employee_name is required" "employee_name must be max 100 characters".

Definition dateErrors (parsedDate : JsDate) : list string :=
  match parsedDate with
  | InvalidDate => ["date must be in YYYY-MM-DD format"]
  | DateOf t =>
      if isWeekend t then ["date cannot be a weekend (Saturday/Sunday)"] else []
  end.

Definition statusErrors (record : Row) : list string :=
  match get record "status" with
  | Some s => if includes VALID_STATUSES s then []
              else [("status must be one of: " ++ join ", " VALID_STATUSES)%string]
  | None => [("status must be one of: " ++ join ", " VALID_STATUSES)%string]
  end.

Definition informedTimeErrors (record : Row) (parsedDate : JsDate) : list string :=
  if statusIs record "Planned Leave" || statusIs record "Unplanned Leave" then
    if falsy (get record "informed_time") then
      ["informed_time is required for leave records"]
    else
      match newDate (text (get record "informed_time")) with
      | InvalidDate => ["informed_time must be valid datetime"]
      | DateOf informed =>
          if statusIs record "Planned Leave" && dateGt (DateOf informed) parsedDate then
            ["informed_time must be before the leave date for planned leave"]
          else if statusIs record "Unplanned Leave" then
            let timeDiff := hoursBetween parsedDate informed in
            if exceeds24 timeDiff then
              ["informed_time must be within 24 hours of date for unplanned leave"]
            else []
          else []
      end
  else [].

Definition departmentErrors (record : Row) : list string :=
  requiredField (get record "department") 50
    "department is required" "department must be max 50 characters".

Definition managerEmailErrors (record : Row) : list string :=
  if falsy (get record "manager_email")
     || negb (emailRegexTest (text (get record "manager_email")))
  then ["manager_email must be a valid email address"]
  else [].

(** [`${record.employee_id}_${record.date}`] *)
Definition keyOf (record : Row) : string :=
  (interpolate (get record "employee_id") ++ "_"
   ++ interpolate (get record "date"))%string.

(** The messages pushed on [rowErrors] before the duplicate check. *)
Definition fieldErrors (record : Row) : list string :=
  let parsedDate := parseDate (get record "date") in
  employeeIdErrors record ++ employeeNameErrors record ++ dateErrors parsedDate
  ++ statusErrors record ++ informedTimeErrors record parsedDate
  ++ departmentErrors record ++ managerEmailErrors record.

Definition duplicateError : string := "duplicate employee_id + date combination".

(** The record pushed on [validRecords]. *)
Definition normalize (record : Row) : ValidRecord :=
  {| employeeId := trim (text (get record "employee_id"));
     employeeName := trim (text (get record "employee_name"));
     date := parseDate (get record "date");
     status := text (get record "status");
     informedTime := if falsy (get record "informed_time") then None
                     else Some (newDate (text (get record "informed_time")));
     department := trim (text (get record "department"));
     managerEmail := toLowerCase (trim (text (get record "manager_email"))) |}.

(** The body of [records.forEach((record, index) => ...)]. *)
Definition validateRecord (st : State) (record : Row) (index : nat) : State :=
  let rowNumber := index + 2 in
  let key := keyOf record in
  let duplicate := includes (s_seenKeys st) key in
  let rowErrors := fieldErrors record ++ (if duplicate then [duplicateError] else []) in
  let seenKeys := if duplicate then s_seenKeys st else s_seenKeys st ++ [key] in
  if Nat.ltb 0 (List.length rowErrors) then
    mkState (s_errors st ++ [RowError rowNumber rowErrors]) (s_validRecords st) seenKeys
  else
    mkState (s_errors st) (s_validRecords st ++ [normalize record]) seenKeys.

Fixpoint forEachRecord (records : list Row) (index : nat) (st : State) : State :=
  match records with
  | [] => st
  | record :: rest => forEachRecord rest (S index) (validateRecord st record index)
  end.

(** *** The volume check *)

(** [employeeGroups]: the own properties of the object, in the order
    they were created. *)
Definition Groups : Type := list (string * list ValidRecord).

(** The names every object inherits from [Object.prototype].  Read on
    the fresh [employeeGroups] each of them is a function or an object,
    so the test [!employeeGroups[name]] fails and the [push] that
    follows throws a TypeError. *)
Definition objectPrototypeKeys : list string :=
  [ "constructor"; "__defineGetter__"; "__defineSetter__"; "hasOwnProperty";
    "__lookupGetter__"; "__lookupSetter__"; "isPrototypeOf";
    "propertyIsEnumerable"; "toString"; "valueOf"; "__proto__";
    "toLocaleString" ].

(** [employeeGroups[key].push(record)], creating the array first where
    the property is missing. *)
Fixpoint pushTo (groups : Groups) (key : string) (record : ValidRecord) : Groups :=
  match groups with
  | [] => [(key, [record])]
  | (k, rs) :: rest =>
      if String.eqb k key then (k, rs ++ [record]) :: rest
      else (k, rs) :: pushTo rest key record
  end.

(** The body of [validRecords.forEach(record => ...)]. *)
Definition groupRecord (groups : result Groups) (record : ValidRecord)
  : result Groups :=
  match groups with
  | Throw m => Throw m
  | Ok g =>
      if includes objectPrototypeKeys (employeeId record) then
        Throw "employeeGroups[record.employeeId].push is not a function"
      else Ok (pushTo g (employeeId record) record)
  end.

Definition groupByEmployee (validRecords : list ValidRecord) : result Groups :=
  fold_left groupRecord validRecords (Ok []).

Definition isDigit (c : ascii) : bool :=
  let n := nat_of_ascii c in Nat.leb 48 n && Nat.leb n 57.

Fixpoint digitsValue (s : string) (acc : N) : N :=
  match s with
  | EmptyString => acc
  | String c s' => digitsValue s' (acc * 10 + N.of_nat (nat_of_ascii c - 48))%N
  end.

Fixpoint allDigits (s : string) : bool :=
  match s with
  | EmptyString => true
  | String c s' => isDigit c && allDigits s'
  end.

(** The array index a property name stands for, if any: a canonical
    decimal numeral below 2^32 - 1. *)
Definition arrayIndex (key : string) : option N :=
  match key with
  | EmptyString => None
  | String c rest =>
      if allDigits key && (negb (Ascii.eqb c "0") || String.eqb rest "") then
        let v := digitsValue key 0 in
        if (v <? 4294967295)%N then Some v else None
      else None
  end.

Definition isIndexKey (entry : string * list ValidRecord) : bool :=
  match arrayIndex (fst entry) with Some _ => true | None => false end.

Definition indexBefore (a b : string * list ValidRecord) : bool :=
  match arrayIndex (fst a), arrayIndex (fst b) with
  | Some x, Some y => (x <? y)%N
  | _, _ => false
  end.

(** [Object.entries(employeeGroups)]: the properties named by array
    indices first, in ascending order, then the others in the order of
    their creation. *)
Definition objectEntries (groups : Groups) : Groups :=
  sortBy indexBefore (filter isIndexKey groups)
  ++ filter (fun e => negb (isIndexKey e)) groups.

Definition outOfRange (n : nat) : bool := Nat.ltb n 55 || Nat.ltb 70 n.

Definition volumeMessage (n : nat) : string :=
  ("Employee must have approximately 63 working days of data (3 months, 5-day week). Found "
   ++ JsNumber.string_of_Z (Z.of_nat n) ++ " days.")%string.

(** The body of [Object.entries(employeeGroups).forEach(...)], as the
    entries it pushes on [errors]. *)
Definition volumeError (entry : string * list ValidRecord) : list ErrorEntry :=
  let (empId, records) := entry in
  if outOfRange (List.length records) then
    [EmployeeError empId [volumeMessage (List.length records)]]
  else [].

Definition volumeErrors (groups : Groups) : list ErrorEntry :=
  flat_map volumeError (objectEntries groups).

(** [REQUIRED_COLUMNS.filter(col => !columns.includes(col))] *)
Definition missingColumnsOf (columns : list string) : list string :=
  filter (fun col => negb (includes columns col)) REQUIRED_COLUMNS.

Definition initialState : State := mkState [] [] [].

(** validateAndNormalize *)
Definition validateAndNormalize (records : list Row) : result ParseResult :=
  match records with
  | [] => Throw "File is empty"
  | first :: _ =>
      let columns := keys first in
      let missingColumns := missingColumnsOf columns in
      if Nat.ltb 0 (List.length missingColumns) then
        Throw ("Missing required columns: " ++ join ", " missingColumns)%string
      else
        let st := forEachRecord records 0 initialState in
        match groupByEmployee (s_validRecords st) with
        | Throw m => Throw m
        | Ok employeeGroups =>
            let errors := s_errors st ++ volumeErrors employeeGroups in
            Ok {| valid := Nat.eqb (List.length errors) 0;
                  validRecords := s_validRecords st;
                  invalidRecords := List.length errors;
                  errors := errors |}
        end
  end.

End Validation.

End FileParser.

(** ** A host for the examples

    The date functions of a host whose time zone is UTC, for the ISO
    forms [yyyy-MM-dd] and [yyyy-MM-ddTHH:mm:ss] only; any other text is
    an Invalid Date here.  The theorems below hold for every host; this
    one serves to run the validator on concrete files. *)

Module UtcHost.

Import FileParser.

Definition digitsOf (s : string) : option Z :=
  if allDigits s && negb (String.eqb s "")
  then Some (Z.of_N (digitsValue s 0)) else None.

(** Days from 1970-01-01 to the civil date [y]-[m]-[d]. *)
Definition daysFromCivil (y m d : Z) : Z :=
  let y' := if (m <=? 2)%Z then (y - 1)%Z else y in
  let era := (y' / 400)%Z in
  let yoe := (y' - era * 400)%Z in
  let mp := if (2 <? m)%Z then (m - 3)%Z else (m + 9)%Z in
  let doy := ((153 * mp + 2) / 5 + d - 1)%Z in
  let doe := (yoe * 365 + yoe / 4 - yoe / 100 + doy)%Z in
  (era * 146097 + doe - 719468)%Z.

Definition isLeapYear (y : Z) : bool :=
  ((y mod 4 =? 0) && (negb (y mod 100 =? 0) || (y mod 400 =? 0)))%Z.

Definition daysInMonth (y m : Z) : Z :=
  if (m =? 2)%Z then (if isLeapYear y then 29 else 28)%Z
  else if ((m =? 4) || (m =? 6) || (m =? 9) || (m =? 11))%Z then 30%Z
  else 31%Z.

Definition msPerDay : Z := 86400000.

(** The midnight that starts the day written [yyyy-MM-dd]. *)
Definition civilDate (s : string) : JsDate :=
  if Nat.eqb (String.length s) 10
     && String.eqb (substring 4 1 s) "-" && String.eqb (substring 7 1 s) "-" then
    match digitsOf (substring 0 4 s), digitsOf (substring 5 2 s),
          digitsOf (substring 8 2 s) with
    | Some y, Some m, Some d =>
        if ((1 <=? m) && (m <=? 12) && (1 <=? d) && (d <=? daysInMonth y m))%Z
        then DateOf (daysFromCivil y m d * msPerDay)
        else InvalidDate
    | _, _, _ => InvalidDate
    end
  else InvalidDate.

(** The time of day written [HH:mm:ss], in milliseconds. *)
Definition clockTime (s : string) : option Z :=
  if Nat.eqb (String.length s) 8
     && String.eqb (substring 2 1 s) ":" && String.eqb (substring 5 1 s) ":" then
    match digitsOf (substring 0 2 s), digitsOf (substring 3 2 s),
          digitsOf (substring 6 2 s) with
    | Some h, Some m, Some sec =>
        if ((h <=? 23) && (m <=? 59) && (sec <=? 59))%Z
        then Some (((h * 60 + m) * 60 + sec) * 1000)%Z
        else None
    | _, _, _ => None
    end
  else None.

Definition parseDate (v : option string) : JsDate :=
  match v with
  | Some s => civilDate s
  | None => InvalidDate
  end.

(** Saturday or Sunday; 1970-01-01 was a Thursday. *)
Definition isWeekend (t : Z) : bool :=
  let day := ((t / msPerDay + 4) mod 7)%Z in
  ((day =? 0) || (day =? 6))%Z.

Definition newDate (s : string) : JsDate :=
  if Nat.eqb (String.length s) 10 then civilDate s
  else if Nat.eqb (String.length s) 19 && String.eqb (substring 10 1 s) "T" then
    match civilDate (substring 0 10 s), clockTime (substring 11 8 s) with
    | DateOf day, Some ms => DateOf (day + ms)
    | _, _ => InvalidDate
    end
  else InvalidDate.

Definition validate : list Row -> result ParseResult :=
  validateAndNormalize parseDate isWeekend newDate.

(** [monthsBefore] of the engine, with every month taken as 30 days. *)
Definition monthsBefore (now months : Z) : Z := (now - months * 30 * msPerDay)%Z.

End UtcHost.

(** ** The recent trend, in the words of the specification *)

Module TrendSpec.

Import JsNumber AttritionEngine.
Open Scope R_scope.

(** The last [k] records of a sequence (all of it when it is shorter). *)
Definition lastRecords {A : Type} (k : nat) (l : list A) : list A :=
  skipn (List.length l - k) l.

(** The sequence without its last [k] records. *)
Definition withoutLast {A : Type} (k : nat) (l : list A) : list A :=
  firstn (List.length l - k) l.

(** The records that precede the last 15, at most 15 of them:
    positions [-30, -15). *)
Definition precedingRecords {A : Type} (l : list A) : list A :=
  lastRecords 15 (withoutLast 15 l).

(** The number of records whose status is Absent. *)
Fixpoint absences (records : list Attendance) : nat :=
  match records with
  | [] => 0
  | r :: rest =>
      (if string_dec (status r) "Absent" then 1 else 0) + absences rest
  end.

(** The absence rate of a group of records, a double. *)
Definition absenceRate (records : list Attendance) : float :=
  (ofNat (absences records) / ofNat (List.length records))%float.

(** trend = recentRate - previousRate *)
Definition trendOf (records : list Attendance) : float :=
  (absenceRate (lastRecords 15 records)
   - absenceRate (precedingRecords records))%float.

(** trend >= 0.15 -> 100; >= 0.10 -> 75; >= 0.05 -> 50; > 0 -> trend * 500;
    <= 0 -> 0. *)
Definition trendBand (trend : float) : float :=
  if (0.15 <=? trend)%float then 100%float
  else if (0.10 <=? trend)%float then 75%float
  else if (0.05 <=? trend)%float then 50%float
  else if (0 <? trend)%float then (trend * 500)%float
  else 0%float.

Definition recentTrendScore (records : list Attendance) : R :=
  if Nat.ltb (List.length records) 20 then 0 else toReal (trendBand (trendOf records)).

End TrendSpec.

(** ** Example data *)

Module Examples.

Import AttritionEngine.

Definition day (n : Z) (s : string) : Attendance := mkAttendance n s.

(** Twenty-one working days: eight absences, one unplanned and one
    planned leave. *)
Definition unevenRecords : list Attendance :=
  [ day 1 "Absent"; day 2 "Absent"; day 3 "Present"; day 4 "Present"; day 5 "Present";
    day 6 "Unplanned Leave"; day 7 "Planned Leave"; day 8 "Present"; day 9 "Present";
    day 10 "Present";
    day 11 "Absent"; day 12 "Absent"; day 13 "Present"; day 14 "Present"; day 15 "Present";
    day 16 "Absent"; day 17 "Absent"; day 18 "Absent"; day 19 "Absent"; day 20 "Present";
    day 21 "Present" ].

Definition unevenEmployee : Employee :=
  mkEmployee "u1" "E1" "Ann Lee" "ann@corp.example" "acme" unevenRecords.

(** An employee without any attendance row. *)
Definition newHire : Employee :=
  mkEmployee "u2" "E2" "Bo Chen" "bo@corp.example" "acme" [].

(** Twenty days, the first of them absent: an absent rate of 0.05. *)
Definition oneInTwenty : list Attendance :=
  day 1 "Absent" :: map (fun n => day (Z.of_nat n) "Present") (seq 2 19).

Definition allPresent : list Attendance :=
  map (fun n => day (Z.of_nat n) "Present") (seq 1 5).

End Examples.

(** ** Auxiliary notions for the statements about the engine *)

Module EngineNotions.

Import AttritionEngine.

(** The four risk levels an assessment can carry. *)
Definition knownLevel (a : Assessment) : Prop :=
  riskLevel a = "High" \/ riskLevel a = "Moderate" \/ riskLevel a = "Low"
  \/ riskLevel a = "Insufficient Data".

(** The number of assessments of a list at a given level. *)
Definition countLevel (level : string) (l : list Assessment) : nat :=
  List.length (filter (hasLevel level) l).

(** The short-circuit answer of calculateAttritionRisk for an employee. *)
Definition insufficientData (e : Employee) : Assessment :=
  {| a_employeeId := employeeId e;
     a_name := name e;
     a_email := None;
     score := 0%R;
     riskLevel := "Insufficient Data";
     factors := [];
     statistics := None;
     recommendation := "Need at least 3 months of attendance data" |}.

End EngineNotions.

(** ** The cases of the recent trend

    Once there are 20 records the trend depends on three counts only:
    the absences among the last 15 records, the number of records that
    precede them in the window (5 to 15) and the absences among those. *)

Module TrendCases.

Import JsNumber AttritionEngine.

(** The trend for [a1] absences among the last 15 records and [a2]
    among the [m] records before them. *)
Definition trendAt (a1 m a2 : nat) : float :=
  (ofNat a1 / ofNat 15 - ofNat a2 / ofNat m)%float.

Definition cases : list (nat * (nat * nat)) :=
  list_prod (seq 0 16) (list_prod (seq 5 11) (seq 0 16)).

(** A property of the three counts holds in every case. *)
Definition inAllCases (P : nat -> nat -> nat -> bool) : bool :=
  forallb (fun c => P (fst c) (fst (snd c)) (snd (snd c))) cases.

(** The score of a trend lies in [0, 100]. *)
Definition scoreInRange (a1 m a2 : nat) : bool :=
  let q := value (TrendSpec.trendBand (trendAt a1 m a2)) in
  Qle_bool 0 q && Qle_bool q 100.

(** A trend that is not positive scores 0. *)
Definition nonPositiveScoresZero (a1 m a2 : nat) : bool :=
  let t := trendAt a1 m a2 in
  implb (Qle_bool (value t) 0) (Qeq_bool (value (TrendSpec.trendBand t)) 0).

(** Without absences on either side the score is 0. *)
Definition noAbsenceScoresZero (a1 m a2 : nat) : bool :=
  implb (Nat.eqb a1 0 && Nat.eqb a2 0)
        (Qeq_bool (value (TrendSpec.trendBand (trendAt a1 m a2))) 0).

(** [m] records with [a2] absences first, then 15 records with [a1]
    absences first. *)
Definition recordsWith (a2 m a1 : nat) : list Attendance :=
  repeat (mkAttendance 0 "Absent") a2 ++ repeat (mkAttendance 0 "Present") (m - a2)
  ++ repeat (mkAttendance 0 "Absent") a1 ++ repeat (mkAttendance 0 "Present") (15 - a1).

(** The comparisons of the doubles are those of the numbers they stand
    for, and the band of a trend is read off its value. *)
Definition bandOf (q : Q) : nat :=
  if Qle_bool (value 0.15%float) q then 4
  else if Qle_bool (value 0.10%float) q then 3
  else if Qle_bool (value 0.05%float) q then 2
  else if Qle_bool q 0 then 0
  else 1.

Definition bandScore (band : nat) : Q :=
  match band with
  | 4%nat => 100%Q
  | 3%nat => 75%Q
  | 2%nat => 50%Q
  | _ => 0%Q
  end.

(** Off the linear piece the score is that of the band; on it the score
    lies between 0 and 50. *)
Definition scoreByBand (a1 m a2 : nat) : bool :=
  let t := trendAt a1 m a2 in
  let score := value (TrendSpec.trendBand t) in
  if Nat.eqb (bandOf (value t)) 1
  then Qle_bool 0 score && Qle_bool score 50
  else Qeq_bool score (bandScore (bandOf (value t))).

(** The cases on the linear piece. *)
Definition linearCases : list (nat * (nat * nat)) :=
  filter (fun c => Nat.eqb (bandOf (value (trendAt (fst c) (fst (snd c)) (snd (snd c))))) 1)
         cases.

(** The trend of a case. *)
Definition trendOfCase (c : nat * (nat * nat)) : float :=
  trendAt (fst c) (fst (snd c)) (snd (snd c)).

(** The score of the second case is no less than that of the first
    when its trend is no less. *)
Definition growsWith (c1 c2 : nat * (nat * nat)) : bool :=
  implb (Qle_bool (value (trendOfCase c1)) (value (trendOfCase c2)))
        (Qle_bool (value (TrendSpec.trendBand (trendOfCase c1)))
                  (value (TrendSpec.trendBand (trendOfCase c2)))).

(** On the linear piece a larger trend scores no less. *)
Definition linearMonotone : bool :=
  forallb (fun c1 => forallb (growsWith c1) linearCases) linearCases.

End TrendCases.

(** ** Auxiliary notions for the statements about the validator *)

Module ParserNotions.

Import JsArray JsString FileParser.

Definition sampleRow (employee date status informed department : string) : Row :=
  [ ("employee_id", employee); ("employee_name", "Ann Lee"); ("date", date);
    ("status", status); ("informed_time", informed);
    ("department", department); ("manager_email", "boss@corp.example") ].

(** A planned leave announced at the very midnight that starts the
    leave date. *)
Definition midnightNotice : Row :=
  sampleRow "E7" "2024-03-04" "Planned Leave" "2024-03-04T00:00:00" "Ops".

(** Two rows for E7 on 2024-03-04; the first one lacks its department. *)
Definition flawedFirst : list Row :=
  [ sampleRow "E7" "2024-03-04" "Present" "" "";
    sampleRow "E7" "2024-03-04" "Present" "" "Ops" ].

(** Two rows for E7 on 2024-03-04, both well formed. *)
Definition repeatedDay : list Row :=
  [ sampleRow "E7" "2024-03-04" "Present" "" "Ops";
    sampleRow "E7" "2024-03-04" "Absent" "" "Ops" ].

(** Two days of one employee. *)
Definition twoDays : list Row :=
  [ sampleRow "E7" "2024-03-04" "Present" "" "Ops";
    sampleRow "E7" "2024-03-05" "Present" "" "Ops" ].

(** Two rows for E7 on 2024-03-04 whose employee_id cells differ by a
    trailing blank, as a spreadsheet can hold them. *)
Definition untrimmedTwice : list Row :=
  [ sampleRow "E7" "2024-03-04" "Present" "" "Ops";
    sampleRow "E7 " "2024-03-04" "Absent" "" "Ops" ].

(** One well-formed row of an employee whose id is the name of a
    property every object inherits. *)
Definition inheritedName : list Row :=
  [ sampleRow "constructor" "2024-03-04" "Present" "" "Ops" ].

(** A file whose header lacks manager_email. *)
Definition noManagerEmail : list Row :=
  [ [ ("employee_id", "E7"); ("employee_name", "Ann Lee"); ("date", "2024-03-04");
      ("status", "Present"); ("informed_time", ""); ("department", "Ops") ] ].

(** Two dates are the same date. *)
Definition sameDate (a b : JsDate) : bool :=
  match a, b with
  | DateOf x, DateOf y => Z.eqb x y
  | InvalidDate, InvalidDate => true
  | _, _ => false
  end.

(** Two pairs of an employee id and a date are the same pair. *)
Definition samePair (p q : string * JsDate) : bool :=
  String.eqb (fst p) (fst q) && sameDate (snd p) (snd q).

(** [v] is a record of the employee and the date of [p]. *)
Definition recordHasPair (p : string * JsDate) (v : ValidRecord) : bool :=
  samePair (employeeId v, date v) p.

Section Notions.

Variable parseDate : option string -> JsDate.
Variable isWeekend : Z -> bool.
Variable newDate : string -> JsDate.

(** The employee and the date a row stands for: the [employeeId] and
    the [date] of the record it is normalized to. *)
Definition pairOf (record : Row) : string * JsDate :=
  (employeeId (normalize parseDate newDate record),
   date (normalize parseDate newDate record)).

(** [record] stands for the employee and the date of [p]. *)
Definition hasPair (p : string * JsDate) (record : Row) : bool :=
  samePair (pairOf record) p.

(** On the rows of a file the string the code builds as the key tells
    the pairs apart: two rows carry the same string exactly when they
    stand for the same employee and the same date. *)
Definition keysIdentifyPairs (records : list Row) : bool :=
  forallb (fun r1 =>
    forallb (fun r2 =>
      Bool.eqb (String.eqb (keyOf r1) (keyOf r2))
               (samePair (pairOf r1) (pairOf r2))) records) records.

(** The number of rows that stand for a pair. *)
Definition pairOccurrences (p : string * JsDate) (records : list Row) : nat :=
  List.length (filter (hasPair p) records).

(** An entry of [errors] about a line of the file whose row stands for
    the pair [p]. *)
Definition aboutPair (records : list Row) (p : string * JsDate)
    (entry : ErrorEntry) : bool :=
  match entry with
  | RowError n _ =>
      match nth_error records (n - 2) with
      | Some record => hasPair p record
      | None => false
      end
  | EmployeeError _ _ => false
  end.

(** The messages a row collects when the rows [earlier] precede it in
    the file: those of its fields, and the duplicate message when an
    earlier row has its key. *)
Definition verdict (earlier : list Row) (record : Row) : list string :=
  fieldErrors parseDate isWeekend newDate record
  ++ (if includes (map keyOf earlier) (keyOf record) then [duplicateError] else []).

(** The row errors of the rows [records] that follow [earlier]. *)
Fixpoint reportFrom (earlier records : list Row) : list ErrorEntry :=
  match records with
  | [] => []
  | record :: rest =>
      match verdict earlier record with
      | [] => []
      | messages => [RowError (List.length earlier + 2) messages]
      end ++ reportFrom (earlier ++ [record]) rest
  end.

(** The rows of [records] that collect no message. *)
Fixpoint keptFrom (earlier records : list Row) : list Row :=
  match records with
  | [] => []
  | record :: rest =>
      match verdict earlier record with
      | [] => [record]
      | _ => []
      end ++ keptFrom (earlier ++ [record]) rest
  end.

(** A row collects no message from its fields. *)
Definition passesFields (record : Row) : bool :=
  match fieldErrors parseDate isWeekend newDate record with
  | [] => true
  | _ => false
  end.

End Notions.

(** [record] carries the composite key [key]. *)
Definition hasKey (key : string) (record : Row) : bool :=
  String.eqb (keyOf record) key.

(** The number of rows that carry a key. *)
Definition occurrences (key : string) (records : list Row) : nat :=
  List.length (filter (hasKey key) records).

(** An entry of [errors] that cites duplication. *)
Definition citesDuplicate (entry : ErrorEntry) : bool :=
  match entry with
  | RowError _ messages => includes messages duplicateError
  | EmployeeError _ _ => false
  end.

(** An entry of [errors] about a line of the file whose row carries
    [key]; line [n] holds the record of index [n - 2]. *)
Definition aboutKey (records : list Row) (key : string) (entry : ErrorEntry) : bool :=
  match entry with
  | RowError n _ =>
      match nth_error records (n - 2) with
      | Some record => hasKey key record
      | None => false
      end
  | EmployeeError _ _ => false
  end.

(** The entries of [errors] that reject a row with [key] as a duplicate. *)
Definition duplicateReports (records : list Row) (key : string)
    (errors : list ErrorEntry) : list ErrorEntry :=
  filter (fun e => citesDuplicate e && aboutKey records key e) errors.

(** The entries of [errors] that reject as a duplicate a row that
    stands for the pair [p]. *)
Definition pairReports (parseDate : option string -> JsDate)
    (newDate : string -> JsDate) (records : list Row) (p : string * JsDate)
    (errors : list ErrorEntry) : list ErrorEntry :=
  filter (fun e => citesDuplicate e && aboutPair parseDate newDate records p e)
         errors.

(** The row an entry of [errors] is about, if it is about one. *)
Definition rowOf (entry : ErrorEntry) : option nat :=
  match entry with
  | RowError row _ => Some row
  | EmployeeError _ _ => None
  end.

(** The records of an employee. *)
Definition sameEmployee (employee : string) (v : ValidRecord) : bool :=
  String.eqb (employeeId v) employee.

(** The number of records of [validRecords] that belong to an employee. *)
Definition daysOf (employee : string) (validRecords : list ValidRecord) : nat :=
  List.length (filter (sameEmployee employee) validRecords).

(** The groups built from a list of records: one entry for each employee
    that has a record, holding the records of that employee in order. *)
Definition groupsOf (vs : list ValidRecord) (g : Groups) : Prop :=
  NoDup (map fst g)
  /\ forall (k : string) (rs : list ValidRecord),
       In (k, rs) g <-> rs = filter (sameEmployee k) vs /\ rs <> [].

(** No record carries an employee id that names a property inherited
    from [Object.prototype]. *)
Definition plainEmployeeIds (validRecords : list ValidRecord) : Prop :=
  Forall (fun v => includes objectPrototypeKeys (employeeId v) = false) validRecords.

End ParserNotions.

(** ** The routes of the attrition API (routes/attrition) *)

Module AttritionRoutes.

Import JsNumber AttritionEngine.

(** The list the GET /high-risk handler answers with:
    [report.employees.filter(e => e.score >= parseInt(threshold))]. *)
Definition highRiskEmployees (report : Report) (threshold : Z) : list Assessment :=
  filter (fun e => geb (score e) (IZR threshold)) (employees report).

End AttritionRoutes.

(** ** Further notions for the statements about the engine *)

Module EngineOrder.

Import JsNumber AttritionEngine.

(** The order of the risk levels: Low, Moderate, High. *)
Definition levelRank (level : string) : nat :=
  if String.eqb level "High" then 2
  else if String.eqb level "Moderate" then 1
  else 0.

(** [a] does not come after [b] in a list sorted by score, highest first. *)
Definition scoreGe (a b : Assessment) : Prop := (score b <= score a)%R.

(** The assessments of a list whose score is [s]. *)
Definition withScore (s : R) (l : list Assessment) : list Assessment :=
  filter (fun a => if Req_dec_T (score a) s then true else false) l.

(** Consecutive groups of five: the "weeks" of the consistency score,
    the last one shorter when the length is no multiple of five. *)
Fixpoint weeksOf (fuel : nat) (records : list Attendance) : list (list Attendance) :=
  match fuel with
  | O => []
  | S fuel' =>
      match records with
      | [] => []
      | _ => firstn 5 records :: weeksOf fuel' (skipn 5 records)
      end
  end.

Definition weeks (records : list Attendance) : list (list Attendance) :=
  weeksOf (List.length records) records.

(** The four statuses the engine counts. *)
Definition knownStatus (r : Attendance) : bool :=
  hasStatus "Present" r || hasStatus "Absent" r
  || hasStatus "Planned Leave" r || hasStatus "Unplanned Leave" r.

End EngineOrder.

(** ** Further notions for the statements about the validator *)

Module ParserOrder.

Import FileParser ParserNotions.

(** The lines of the file that the entries of [errors] are about. *)
Definition rowNumbers (errors : list ErrorEntry) : list nat :=
  flat_map (fun e => match rowOf e with Some n => [n] | None => [] end) errors.

(** The entries of [errors] that are about an employee. *)
Definition employeeEntries (errors : list ErrorEntry) : list ErrorEntry :=
  filter (fun e => match rowOf e with Some _ => false | None => true end) errors.

End ParserOrder.

(** ** Tactics *)

(** Splits on the outcome of a comparison of the goal. *)
Ltac split_geb :=
  match goal with
  | |- context [JsNumber.geb ?x ?y] =>
      change (JsNumber.geb x y) with (if Rle_dec y x then true else false);
      destruct (Rle_dec y x); cbv beta iota
  | |- context [JsNumber.gtb ?x ?y] =>
      change (JsNumber.gtb x y) with (if Rlt_dec y x then true else false);
      destruct (Rlt_dec y x); cbv beta iota
  end.

(** Evaluates the rates of concrete record sequences to numerals. *)
Ltac eval_rate :=
  unfold AttritionEngine.absentRateOf, AttritionEngine.countStatus;
  simpl List.length;
  rewrite ?INR_IZR_INZ; simpl Z.of_nat.

(** * Facts about the attrition engine *)

Module EngineFacts.

Import JsNumber JsArray AttritionEngine.
Open Scope R_scope.

(** ** Comparisons *)

Lemma geb_true (x y : R) : geb x y = true -> y <= x.
Proof. unfold geb. destruct (Rle_dec y x); [trivial | discriminate]. Qed.

Lemma geb_false (x y : R) : geb x y = false -> x < y.
Proof. unfold geb. destruct (Rle_dec y x); [discriminate | lra]. Qed.

Lemma gtb_true (x y : R) : gtb x y = true -> y < x.
Proof. unfold gtb. destruct (Rlt_dec y x); [trivial | discriminate]. Qed.

Lemma gtb_false (x y : R) : gtb x y = false -> x <= y.
Proof. unfold gtb. destruct (Rlt_dec y x); [discriminate | lra]. Qed.

Lemma geb_intro_true (x y : R) : y <= x -> geb x y = true.
Proof. intro H. unfold geb. destruct (Rle_dec y x); [reflexivity | contradiction]. Qed.

Lemma geb_intro_false (x y : R) : x < y -> geb x y = false.
Proof. intro H. unfold geb. destruct (Rle_dec y x); [lra | reflexivity]. Qed.

Lemma gtb_intro_true (x y : R) : y < x -> gtb x y = true.
Proof. intro H. unfold gtb. destruct (Rlt_dec y x); [reflexivity | contradiction]. Qed.

Lemma gtb_intro_false (x y : R) : x <= y -> gtb x y = false.
Proof. intro H. unfold gtb. destruct (Rlt_dec y x); [lra | reflexivity]. Qed.

(** ** Rates *)

Lemma countStatus_le (s : string) (records : list Attendance) :
  (countStatus s records <= List.length records)%nat.
Proof. unfold countStatus. apply filter_length_le. Qed.

Lemma length_pos (A : Type) (l : list A) : l <> [] -> 0 < INR (List.length l).
Proof.
  intro H. destruct l as [|x l]; [contradiction|].
  apply lt_0_INR. simpl. lia.
Qed.

Lemma ratio_nonneg (a n : nat) : 0 <= INR a / INR n.
Proof.
  destruct n as [|n].
  - simpl. unfold Rdiv. rewrite Rinv_0. lra.
  - apply Rmult_le_pos; [apply pos_INR|].
    left. apply Rinv_0_lt_compat. apply lt_0_INR. lia.
Qed.

Lemma ratio_zero (n : nat) : INR 0 / INR n = 0.
Proof. simpl. unfold Rdiv. lra. Qed.

(** ** Doubles read as numbers *)

Lemma Q2R_zero : Q2R 0 = 0.
Proof. unfold Q2R. simpl. lra. Qed.

Lemma toReal_zero : toReal 0%float = 0.
Proof. unfold toReal. change (value 0%float) with 0%Q. apply Q2R_zero. Qed.

Lemma Qle_bool_Rle (q1 q2 : Q) : Qle_bool q1 q2 = true -> Q2R q1 <= Q2R q2.
Proof. intro H. apply Qle_Rle, Qle_bool_iff. exact H. Qed.

Lemma Rle_Qle_bool (q1 q2 : Q) : Q2R q1 <= Q2R q2 -> Qle_bool q1 q2 = true.
Proof. intro H. apply Qle_bool_iff, Rle_Qle. exact H. Qed.

Lemma Qeq_bool_Req (q1 q2 : Q) : Qeq_bool q1 q2 = true -> Q2R q1 = Q2R q2.
Proof. intro H. apply Qeq_eqR, Qeq_bool_iff. exact H. Qed.

(** ** The windows of the recent trend *)

Section Slices.

Context {A : Type}.

Lemma slice_last15 (l : list A) :
  slice l (-15) None = TrendSpec.lastRecords 15 l.
Proof.
  unfold slice, relIndex, TrendSpec.lastRecords.
  change (-15 <? 0)%Z with true. cbv beta zeta iota.
  replace (Z.to_nat (Z.max (Z.of_nat (List.length l) + -15) 0))
    with (List.length l - 15)%nat by lia.
  apply firstn_all2. rewrite length_skipn. lia.
Qed.

Lemma slice_preceding15 (l : list A) :
  slice l (-30) (Some (-15)%Z) = TrendSpec.precedingRecords l.
Proof.
  unfold slice, relIndex, TrendSpec.precedingRecords, TrendSpec.lastRecords,
    TrendSpec.withoutLast.
  change (-15 <? 0)%Z with true. change (-30 <? 0)%Z with true.
  cbv beta zeta iota.
  rewrite length_firstn, skipn_firstn_comm.
  replace (Z.to_nat (Z.max (Z.of_nat (List.length l) + -30) 0))
    with (List.length l - 30)%nat by lia.
  replace (Nat.min (List.length l - 15) (List.length l) - 15)%nat
    with (List.length l - 30)%nat by lia.
  f_equal. lia.
Qed.

Lemma length_lastRecords (k : nat) (l : list A) :
  List.length (TrendSpec.lastRecords k l) = Nat.min k (List.length l).
Proof. unfold TrendSpec.lastRecords. rewrite length_skipn. lia. Qed.

Lemma length_precedingRecords (l : list A) :
  List.length (TrendSpec.precedingRecords l) = Nat.min 15 (List.length l - 15).
Proof.
  unfold TrendSpec.precedingRecords, TrendSpec.withoutLast.
  rewrite length_lastRecords, length_firstn. lia.
Qed.

End Slices.

(** ** The cases of the recent trend *)

(** The filter of the code counts the absences. *)
Lemma countStatus_absences (records : list Attendance) :
  countStatus "Absent" records = TrendSpec.absences records.
Proof.
  unfold countStatus, hasStatus.
  induction records as [|r records IH]; [reflexivity|].
  cbn [filter TrendSpec.absences].
  destruct (string_dec (status r) "Absent") as [E|E].
  - rewrite E. cbn [String.eqb Ascii.eqb Bool.eqb List.length]. rewrite IH. reflexivity.
  - apply String.eqb_neq in E. rewrite E. exact IH.
Qed.

Lemma absences_le (records : list Attendance) :
  (TrendSpec.absences records <= List.length records)%nat.
Proof.
  induction records as [|r records IH]; [cbn; lia|].
  cbn [TrendSpec.absences List.length].
  destruct (string_dec (status r) "Absent"); lia.
Qed.

Lemma trendOf_case (records : list Attendance) :
  (20 <= List.length records)%nat ->
  let a1 := TrendSpec.absences (TrendSpec.lastRecords 15 records) in
  let m := List.length (TrendSpec.precedingRecords records) in
  let a2 := TrendSpec.absences (TrendSpec.precedingRecords records) in
  TrendSpec.trendOf records = TrendCases.trendAt a1 m a2
  /\ In (a1, (m, a2)) TrendCases.cases.
Proof.
  intros Hn a1 m a2.
  pose proof (absences_le (TrendSpec.lastRecords 15 records)) as H1.
  pose proof (absences_le (TrendSpec.precedingRecords records)) as H2.
  rewrite length_lastRecords in H1.
  pose proof (length_precedingRecords records) as Hm.
  split.
  - unfold TrendSpec.trendOf, TrendSpec.absenceRate, TrendCases.trendAt.
    rewrite length_lastRecords.
    replace (Nat.min 15 (List.length records)) with 15%nat by lia. reflexivity.
  - unfold TrendCases.cases. apply in_prod; [|apply in_prod]; apply in_seq;
      unfold a1, m, a2; lia.
Qed.

Lemma inAllCases_spec (P : nat -> nat -> nat -> bool) :
  TrendCases.inAllCases P = true ->
  forall records : list Attendance,
    (20 <= List.length records)%nat ->
    P (TrendSpec.absences (TrendSpec.lastRecords 15 records))
      (List.length (TrendSpec.precedingRecords records))
      (TrendSpec.absences (TrendSpec.precedingRecords records)) = true.
Proof.
  intros H records Hn. unfold TrendCases.inAllCases in H.
  rewrite forallb_forall in H.
  destruct (trendOf_case records Hn) as [_ Hin].
  exact (H _ Hin).
Qed.

(** The code computes the trend score of the specification. *)
Lemma recentTrend_refines (records : list Attendance) :
  calculateRecentTrendScore records = TrendSpec.recentTrendScore records.
Proof.
  unfold calculateRecentTrendScore, trendScoreDouble, TrendSpec.recentTrendScore.
  destruct (Nat.ltb (List.length records) 20); [apply toReal_zero|].
  rewrite slice_last15, slice_preceding15, !countStatus_absences. reflexivity.
Qed.

Lemma trendBand_range (records : list Attendance) :
  (20 <= List.length records)%nat ->
  0 <= toReal (TrendSpec.trendBand (TrendSpec.trendOf records)) <= 100.
Proof.
  intro Hn.
  assert (Hall : TrendCases.inAllCases TrendCases.scoreInRange = true)
    by (vm_compute; reflexivity).
  pose proof (inAllCases_spec _ Hall records Hn) as H.
  unfold TrendCases.scoreInRange in H.
  rewrite <- (proj1 (trendOf_case records Hn)) in H.
  apply andb_true_iff in H. destruct H as [H0 H100].
  apply Qle_bool_Rle in H0, H100. rewrite Q2R_zero in H0.
  unfold toReal.
  replace (Q2R 100) with 100 in H100 by (unfold Q2R; simpl; lra).
  lra.
Qed.

Lemma trendBand_nonpositive (records : list Attendance) :
  (20 <= List.length records)%nat ->
  toReal (TrendSpec.trendOf records) <= 0 ->
  toReal (TrendSpec.trendBand (TrendSpec.trendOf records)) = 0.
Proof.
  intros Hn Ht.
  assert (Hall : TrendCases.inAllCases TrendCases.nonPositiveScoresZero = true)
    by (vm_compute; reflexivity).
  pose proof (inAllCases_spec _ Hall records Hn) as H.
  unfold TrendCases.nonPositiveScoresZero in H.
  rewrite <- (proj1 (trendOf_case records Hn)) in H.
  unfold toReal in *. rewrite <- Q2R_zero in Ht. apply Rle_Qle_bool in Ht.
  rewrite Ht in H. cbn [implb] in H.
  apply Qeq_bool_Req in H. rewrite H. apply Q2R_zero.
Qed.

(** ** The four sub-scores stay in [0, 100] *)

Lemma absenteeism_range (records : list Attendance) :
  0 <= calculateAbsenteeismScore records <= 100.
Proof.
  unfold calculateAbsenteeismScore.
  pose proof (ratio_nonneg (countStatus "Absent" records) (List.length records)).
  repeat split_geb; lra.
Qed.

Lemma leavePattern_range (records : list Attendance) :
  0 <= calculateLeavePatternScore records <= 100.
Proof.
  unfold calculateLeavePatternScore.
  destruct (Nat.eqb _ 0); [lra|].
  pose proof (ratio_nonneg (countStatus "Unplanned Leave" records)
                           (List.length (filter isLeave records))).
  repeat split_geb; lra.
Qed.

Lemma consistency_range (records : list Attendance) :
  0 <= calculateConsistencyScore records <= 100.
Proof.
  unfold calculateConsistencyScore.
  destruct (Nat.ltb _ 2); [lra|].
  split.
  - apply Rmin_glb; [|lra].
    apply Rmult_le_pos; [apply sqrt_pos | lra].
  - apply Rmin_r.
Qed.

Lemma recentTrend_range (records : list Attendance) :
  0 <= calculateRecentTrendScore records <= 100.
Proof.
  rewrite recentTrend_refines. unfold TrendSpec.recentTrendScore.
  destruct (Nat.ltb (List.length records) 20) eqn:E; [lra|].
  apply Nat.ltb_ge in E. apply trendBand_range. exact E.
Qed.

(** C6.  For every non-empty record sequence each of the four
    sub-scores lies in [0, 100]; the composite score is their combination
    with the weights 0.35, 0.25, 0.25 and 0.15, which are non-negative
    and sum to 1, and so it lies in [0, 100] too. *)
Theorem C6_scores_in_range (records : list Attendance) :
  records <> [] ->
  let a := calculateAbsenteeismScore records in
  let l := calculateLeavePatternScore records in
  let c := calculateConsistencyScore records in
  let t := calculateRecentTrendScore records in
  (0 <= a <= 100) /\ (0 <= l <= 100) /\ (0 <= c <= 100) /\ (0 <= t <= 100)
  /\ compositeScore records = a * 0.35 + l * 0.25 + c * 0.25 + t * 0.15
  /\ 0.35 + 0.25 + 0.25 + 0.15 = 1
  /\ 0 <= compositeScore records <= 100.
Proof.
  intros _ a l c t.
  pose proof (absenteeism_range records) as Ha.
  pose proof (leavePattern_range records) as Hl.
  pose proof (consistency_range records) as Hc.
  pose proof (recentTrend_range records) as Ht.
  fold a in Ha. fold l in Hl. fold c in Hc. fold t in Ht.
  assert (E : compositeScore records = a * 0.35 + l * 0.25 + c * 0.25 + t * 0.15)
    by reflexivity.
  repeat split; try tauto; try lra.
Qed.

Lemma C6_scores_in_range_witness :
  0 <= compositeScore Examples.unevenRecords <= 100.
Proof.
  apply (C6_scores_in_range Examples.unevenRecords). discriminate.
Defined.

(** ** The absenteeism score at rate 0 and at the 0.05 boundary *)

(** C5.  For a non-empty record sequence with absent rate 0 the
    absenteeism score is 0; with absent rate exactly 0.05 it is 40 (the
    step branch); below 0.05 it is the ramp [rate * 800], whose value at
    0.05 is 40 and which tends to 40 as the rate approaches 0.05 from
    below. *)
Theorem C5_absenteeism_zero_and_boundary (records : list Attendance) :
  records <> [] ->
  (absentRateOf records = 0 -> calculateAbsenteeismScore records = 0)
  /\ (absentRateOf records = 0.05 -> calculateAbsenteeismScore records = 40)
  /\ (absentRateOf records < 0.05 ->
      calculateAbsenteeismScore records = absentRateOf records * 800)
  /\ 0.05 * 800 = 40
  /\ (forall eps : R, 0 < eps ->
      exists delta : R, 0 < delta /\
        forall rate : R, 0.05 - delta < rate < 0.05 ->
                         40 - eps < rate * 800 < 40).
Proof.
  intros _.
  unfold calculateAbsenteeismScore, absentRateOf.
  set (rate := INR (countStatus "Absent" records) / INR (List.length records)).
  split; [|split; [|split; [|split]]].
  - intro H. rewrite H. repeat split_geb; lra.
  - intro H. rewrite H. repeat split_geb; lra.
  - intro H. repeat split_geb; lra.
  - lra.
  - intros eps Heps. exists (eps / 800). split; [lra|].
    intros r Hr. lra.
Qed.

Lemma C5_absenteeism_zero_and_boundary_witness :
  calculateAbsenteeismScore Examples.allPresent = 0
  /\ calculateAbsenteeismScore Examples.oneInTwenty = 40.
Proof.
  split.
  - apply (C5_absenteeism_zero_and_boundary Examples.allPresent).
    + discriminate.
    + eval_rate. lra.
  - apply (C5_absenteeism_zero_and_boundary Examples.oneInTwenty).
    + discriminate.
    + eval_rate. lra.
Defined.
(** ** The recent trend *)

(** At the edge of a band the rounding of the doubles decides: 3/15 -
    1/10 is the double 0.1 and scores 75, while 9/15 - 5/10 is the
    double just below it and scores 50. *)
Lemma trend_at_band_edge :
  calculateRecentTrendScore (TrendCases.recordsWith 1 10 3) = 75
  /\ calculateRecentTrendScore (TrendCases.recordsWith 5 10 9) = 50.
Proof.
  unfold calculateRecentTrendScore.
  replace (trendScoreDouble (TrendCases.recordsWith 1 10 3)) with 75%float
    by (vm_compute; reflexivity).
  replace (trendScoreDouble (TrendCases.recordsWith 5 10 9)) with 50%float
    by (vm_compute; reflexivity).
  unfold toReal.
  change (value 75%float) with (75 # 1)%Q. change (value 50%float) with (50 # 1)%Q.
  unfold Q2R. simpl. split; lra.
Qed.



(** ** Rounding and classification just below 70 *)

Lemma round1_below_70 (c : R) : 69.95 <= c < 70 -> round1 c = 70.
Proof.
  intros [Hlo Hhi]. unfold round1, Math_round.
  rewrite (Zfloor_eq 700); [lra|].
  split; lra.
Qed.

Lemma level_below_70 (c : R) : 69.95 <= c < 70 -> determineRiskLevel c = "Moderate".
Proof.
  intros [Hlo Hhi]. unfold determineRiskLevel.
  rewrite (geb_intro_false c 70) by lra.
  rewrite (geb_intro_true c 40) by lra.
  reflexivity.
Qed.

(** ** The scores of the uneven example *)

Lemma sqrt_between (v lo hi : R) :
  0 <= lo -> 0 <= hi -> lo * lo <= v -> v <= hi * hi -> lo <= sqrt v <= hi.
Proof.
  intros Hlo Hhi H1 H2.
  assert (Hv : 0 <= v) by nra.
  split.
  - rewrite <- (sqrt_square lo Hlo). apply sqrt_le_1; nra.
  - rewrite <- (sqrt_square hi Hhi). apply sqrt_le_1; nra.
Qed.

Lemma uneven_weeklyRates :
  weeklyRatesOf Examples.unevenRecords = [2 / 5; 0 / 5; 2 / 5; 4 / 5; 0 / 1].
Proof.
  unfold weeklyRatesOf, Examples.unevenRecords.
  cbn [weeklyLoop List.length app Nat.eqb Nat.sub orb].
  eval_rate. reflexivity.
Qed.

Lemma uneven_absenteeism :
  calculateAbsenteeismScore Examples.unevenRecords = 100.
Proof.
  unfold calculateAbsenteeismScore. eval_rate.
  rewrite geb_intro_true by lra. reflexivity.
Qed.

Lemma uneven_leavePattern :
  calculateLeavePatternScore Examples.unevenRecords = 50.
Proof.
  unfold calculateLeavePatternScore. eval_rate.
  cbn [Nat.eqb].
  rewrite (geb_intro_false _ 0.80) by lra.
  rewrite (geb_intro_false _ 0.60) by lra.
  rewrite (geb_intro_true _ 0.40) by lra.
  reflexivity.
Qed.

Lemma uneven_recentTrend :
  calculateRecentTrendScore Examples.unevenRecords = 50.
Proof.
  unfold calculateRecentTrendScore.
  replace (trendScoreDouble Examples.unevenRecords) with 50%float
    by (vm_compute; reflexivity).
  unfold toReal. change (value 50%float) with (50 # 1)%Q.
  unfold Q2R. simpl. lra.
Qed.

Lemma uneven_consistency :
  59.84 <= calculateConsistencyScore Examples.unevenRecords <= 59.96.
Proof.
  unfold calculateConsistencyScore. rewrite uneven_weeklyRates.
  cbn [List.length Nat.ltb Nat.leb fold_left].
  rewrite !INR_IZR_INZ. simpl Z.of_nat.
  match goal with |- context [sqrt ?v] =>
    assert (Hs : 0.2992 <= sqrt v <= 0.2998) by (apply sqrt_between; lra)
  end.
  rewrite Rmin_left by lra. lra.
Qed.

Lemma uneven_composite :
  69.95 <= compositeScore Examples.unevenRecords < 70.
Proof.
  unfold compositeScore.
  rewrite uneven_absenteeism, uneven_leavePattern, uneven_recentTrend.
  pose proof uneven_consistency. lra.
Qed.

(** ** The short circuit on an empty window *)

(** C7.  When the employee is found and its windowed record sequence is
    empty, scoring returns (it does not throw) the assessment with risk
    level 'Insufficient Data', score 0, no factors and the
    recommendation that asks for three months of data; this holds
    whatever the four sub-score formulas are, so none of them takes part
    in the answer. *)
Theorem C7_insufficient_data
    (monthsBefore : Z -> Z -> Z)
    (absenteeism leavePattern consistency recentTrend : list Attendance -> R)
    (db : Store) (now : Z) (key : string) (months : Z) (e : Employee) :
  findUnique db key (monthsBefore now months) now = Some e ->
  attendance e = [] ->
  calculateAttritionRiskWith monthsBefore
    absenteeism leavePattern consistency recentTrend db now key months
  = Ok {| a_employeeId := employeeId e;
          a_name := name e;
          a_email := None;
          score := 0;
          riskLevel := "Insufficient Data";
          factors := [];
          statistics := None;
          recommendation := "Need at least 3 months of attendance data" |}.
Proof.
  intros Hfind Hempty. unfold calculateAttritionRiskWith.
  rewrite Hfind, Hempty. reflexivity.
Qed.

Lemma C7_insufficient_data_witness :
  calculateAttritionRisk UtcHost.monthsBefore [Examples.newHire] 21%Z "u2" 3%Z
  = Ok (EngineNotions.insufficientData Examples.newHire).
Proof.
  unfold calculateAttritionRisk.
  apply (C7_insufficient_data UtcHost.monthsBefore _ _ _ _
           [Examples.newHire] 21%Z "u2" 3%Z Examples.newHire).
  - reflexivity.
  - reflexivity.
Defined.

(** ** The scored path *)

Lemma calculateAttritionRisk_scored
    (monthsBefore : Z -> Z -> Z) (db : Store) (now : Z) (key : string)
    (months : Z) (e : Employee) :
  findUnique db key (monthsBefore now months) now = Some e ->
  attendance e <> [] ->
  exists a : Assessment,
    calculateAttritionRisk monthsBefore db now key months = Ok a
    /\ riskLevel a = determineRiskLevel (compositeScore (attendance e))
    /\ score a = round1 (compositeScore (attendance e)).
Proof.
  intros Hfind Hne.
  unfold calculateAttritionRisk, calculateAttritionRiskWith.
  rewrite Hfind.
  destruct (attendance e) as [|r rs] eqn:Hatt; [contradiction|].
  cbn [List.length Nat.eqb].
  eexists. split; [reflexivity|]. split; reflexivity.
Qed.

Lemma uneven_found :
  findUnique [Examples.unevenEmployee] "u1" (UtcHost.monthsBefore 21 3) 21%Z
  = Some Examples.unevenEmployee.
Proof. reflexivity. Qed.



(** ** The summary of a report *)

Import EngineNotions.

Lemma determineRiskLevel_cases (c : R) :
  determineRiskLevel c = "High" \/ determineRiskLevel c = "Moderate"
  \/ determineRiskLevel c = "Low".
Proof.
  unfold determineRiskLevel.
  destruct (geb c 70); [tauto|]. destruct (geb c 40); tauto.
Qed.

Lemma calculateAttritionRisk_knownLevel
    (monthsBefore : Z -> Z -> Z) (db : Store) (now : Z) (key : string)
    (months : Z) (a : Assessment) :
  calculateAttritionRisk monthsBefore db now key months = Ok a -> knownLevel a.
Proof.
  unfold calculateAttritionRisk, calculateAttritionRiskWith, knownLevel.
  destruct (findUnique db key (monthsBefore now months) now) as [e|];
    [|discriminate].
  destruct (Nat.eqb (List.length (attendance e)) 0); intro H;
    injection H as <-; cbn [riskLevel].
  - tauto.
  - destruct (determineRiskLevel_cases
                (calculateAbsenteeismScore (attendance e) * 0.35 +
                 calculateLeavePatternScore (attendance e) * 0.25 +
                 calculateConsistencyScore (attendance e) * 0.25 +
                 calculateRecentTrendScore (attendance e) * 0.15))
      as [H|[H|H]]; rewrite H; tauto.
Qed.

Lemma collect_knownLevel
    (monthsBefore : Z -> Z -> Z) (db : Store) (now months : Z)
    (found : list Employee) (acc : list Assessment) :
  Forall knownLevel acc ->
  Forall knownLevel
    (fold_left
       (fun results employee =>
          match calculateAttritionRisk monthsBefore db now (id employee) months with
          | Ok risk => results ++ [risk]
          | Throw _ => results
          end)
       found acc).
Proof.
  revert acc. induction found as [|e found IH]; intros acc Hacc; [exact Hacc|].
  cbn [fold_left]. apply IH.
  destruct (calculateAttritionRisk monthsBefore db now (id e) months) as [a|m] eqn:E;
    [|exact Hacc].
  apply Forall_app. split; [exact Hacc|].
  constructor; [|constructor].
  exact (calculateAttritionRisk_knownLevel _ _ _ _ _ _ E).
Qed.

Section Sorting.

Context {A : Type} (before : A -> A -> bool).

Lemma insertBy_perm (x : A) (l : list A) :
  Permutation (x :: l) (insertBy before x l).
Proof.
  induction l as [|y l IH]; cbn [insertBy]; [reflexivity|].
  destruct (before y x); [|reflexivity].
  rewrite perm_swap. constructor. exact IH.
Qed.

Lemma sortBy_perm (l : list A) : Permutation l (sortBy before l).
Proof.
  induction l as [|x l IH]; cbn [sortBy]; [constructor|].
  rewrite <- insertBy_perm. constructor. exact IH.
Qed.

Lemma sortBy_Forall (P : A -> Prop) (l : list A) :
  Forall P l -> Forall P (sortBy before l).
Proof.
  intro H. apply Forall_forall. intros x Hx.
  rewrite Forall_forall in H. apply H.
  apply (Permutation_in x (Permutation_sym (sortBy_perm l))). exact Hx.
Qed.

End Sorting.

Lemma countLevel_cons (level : string) (a : Assessment) (l : list Assessment) :
  countLevel level (a :: l)
  = ((if String.eqb (riskLevel a) level then 1 else 0) + countLevel level l)%nat.
Proof.
  unfold countLevel, hasLevel. cbn [filter].
  destruct (String.eqb (riskLevel a) level); reflexivity.
Qed.

Lemma level_partition (l : list Assessment) :
  Forall knownLevel l ->
  (countLevel "High" l + countLevel "Moderate" l + countLevel "Low" l
   + countLevel "Insufficient Data" l = List.length l)%nat.
Proof.
  induction 1 as [|a l Ha _ IH]; [reflexivity|].
  rewrite !countLevel_cons. cbn [List.length].
  destruct Ha as [H|[H|[H|H]]]; rewrite H; cbn [String.eqb Ascii.eqb Bool.eqb];
    lia.
Qed.

(** C2, as the code has it.  In the report of generateAttritionReport
    every assessment of the employees list carries one of the levels
    High, Moderate, Low and Insufficient Data; the summary counts the
    first three, so high + moderate + low plus the number of
    'Insufficient Data' entries equals the length of the list. *)
Theorem C2_summary_counts
    (monthsBefore : Z -> Z -> Z) (db : Store) (now : Z) (company : string)
    (months : Z) :
  let report := generateAttritionReport monthsBefore db now company months in
  Forall knownLevel (employees report)
  /\ high (summary report) = countLevel "High" (employees report)
  /\ moderate (summary report) = countLevel "Moderate" (employees report)
  /\ low (summary report) = countLevel "Low" (employees report)
  /\ (high (summary report) + moderate (summary report) + low (summary report)
      + countLevel "Insufficient Data" (employees report)
      = List.length (employees report))%nat.
Proof.
  intro report.
  assert (H : Forall knownLevel (employees report)).
  { unfold report, generateAttritionReport. cbn [employees].
    apply sortBy_Forall. unfold collectResults.
    apply collect_knownLevel. constructor. }
  split; [exact H|].
  split; [reflexivity|]. split; [reflexivity|]. split; [reflexivity|].
  exact (level_partition _ H).
Qed.

Lemma newHire_assessment :
  calculateAttritionRisk UtcHost.monthsBefore [Examples.newHire] 21%Z "u2" 3%Z
  = Ok (insufficientData Examples.newHire).
Proof. reflexivity. Qed.

(** C2, as stated, fails on a company whose only employee has no
    attendance row: the employees list has one entry and the three
    counts are 0. *)
Lemma C2_counterexample :
  let report := generateAttritionReport UtcHost.monthsBefore
                  [Examples.newHire] 21%Z "acme" 3%Z in
  (high (summary report) + moderate (summary report) + low (summary report))%nat
  <> List.length (employees report).
Proof.
  cbv zeta. unfold generateAttritionReport, collectResults.
  cbn [filter Examples.newHire companyId String.eqb Ascii.eqb Bool.eqb fold_left id].
  rewrite newHire_assessment.
  cbn. discriminate.
Qed.

End EngineFacts.

(** * Facts about the upload validator *)

Module ParserFacts.

Import JsArray JsString FileParser ParserNotions.

Lemma includes_In (l : list string) (x : string) :
  includes l x = true <-> In x l.
Proof.
  unfold includes. rewrite existsb_exists. split.
  - intros [y [Hy E]]. apply String.eqb_eq in E. subst y. exact Hy.
  - intro H. exists x. split; [exact H | apply String.eqb_refl].
Qed.

Lemma includes_not_In (l : list string) (x : string) :
  includes l x = false <-> ~ In x l.
Proof.
  rewrite <- includes_In. destruct (includes l x); split; intro H;
    try discriminate; try reflexivity; try (intro; discriminate).
  exfalso. apply H. reflexivity.
Qed.

(** ** Missing columns *)

Lemma missingColumnsOf_spec (columns : list string) (col : string) :
  In col (missingColumnsOf columns) <-> In col REQUIRED_COLUMNS /\ ~ In col columns.
Proof.
  unfold missingColumnsOf. rewrite filter_In, negb_true_iff, includes_not_In.
  reflexivity.
Qed.

Lemma missingColumnsOf_nil (columns : list string) :
  missingColumnsOf columns = [] <-> incl REQUIRED_COLUMNS columns.
Proof.
  split.
  - intros H col Hcol.
    destruct (includes columns col) eqn:E; [apply includes_In; exact E|].
    assert (Hin : In col (missingColumnsOf columns)).
    { apply missingColumnsOf_spec. split; [exact Hcol|].
      apply includes_not_In. exact E. }
    rewrite H in Hin. contradiction.
  - intro H. destruct (missingColumnsOf columns) as [|col rest] eqn:E;
      [reflexivity|].
    assert (Hin : In col (missingColumnsOf columns)) by (rewrite E; left; reflexivity).
    apply missingColumnsOf_spec in Hin. destruct Hin as [Hreq Hnot].
    exfalso. apply Hnot, H, Hreq.
Qed.

(** C9.  When the field names of the first record of a non-empty file
    are not a superset of the required columns, validateAndNormalize
    throws the missing-columns error, whose message lists exactly the
    required columns that are absent; no result is returned, so there
    are no valid records and no row errors, and the rows are not looked
    at (the outcome depends on the names of the first record only). *)
Theorem C9_missing_columns
    (parseDate : option string -> JsDate) (isWeekend : Z -> bool)
    (newDate : string -> JsDate) (first : Row) (rest : list Row) :
  ~ incl REQUIRED_COLUMNS (keys first) ->
  let missing := missingColumnsOf (keys first) in
  missing <> []
  /\ (forall col : string,
        In col missing <-> In col REQUIRED_COLUMNS /\ ~ In col (keys first))
  /\ validateAndNormalize parseDate isWeekend newDate (first :: rest)
     = Throw ("Missing required columns: " ++ join ", " missing)%string
  /\ (forall r : ParseResult,
        validateAndNormalize parseDate isWeekend newDate (first :: rest) <> Ok r).
Proof.
  intros Hnot missing.
  assert (Hne : missing <> []).
  { intro H. apply Hnot. apply missingColumnsOf_nil. exact H. }
  assert (Hthrow : validateAndNormalize parseDate isWeekend newDate (first :: rest)
                   = Throw ("Missing required columns: " ++ join ", " missing)%string).
  { unfold validateAndNormalize. fold missing.
    destruct missing as [|col more]; [contradiction|]. reflexivity. }
  split; [exact Hne|]. split; [apply missingColumnsOf_spec|].
  split; [exact Hthrow|].
  intros r H. rewrite Hthrow in H. discriminate.
Qed.

Lemma C9_missing_columns_witness :
  UtcHost.validate noManagerEmail = Throw "Missing required columns: manager_email".
Proof.
  apply (C9_missing_columns UtcHost.parseDate UtcHost.isWeekend UtcHost.newDate
           (hd [] noManagerEmail) []).
  intro H.
  assert (Hin : In "manager_email" (keys (hd [] noManagerEmail))).
  { apply H. unfold REQUIRED_COLUMNS. do 6 right. left. reflexivity. }
  cbn in Hin.
  repeat (destruct Hin as [Hin|Hin]; [discriminate Hin|]). exact Hin.
Defined.

(** ** The informed_time rule *)

Lemma exceeds24_spec (p informed : Z) :
  exceeds24 (hoursBetween (DateOf p) informed) = true
  <-> (24 * (1000 * 60 * 60) < Z.abs (p - informed))%Z.
Proof.
  unfold exceeds24, hoursBetween. rewrite negb_true_iff.
  split.
  - intro H. destruct (Z_lt_le_dec (24 * (1000 * 60 * 60)) (Z.abs (p - informed)))
      as [Hlt|Hle]; [exact Hlt|].
    assert (Hq : Qle_bool ((Z.abs (p - informed) # 1) / (1000 * 60 * 60)) 24 = true).
    { apply Qle_bool_iff. unfold Qle, Qdiv, Qmult, Qinv. simpl. lia. }
    rewrite Hq in H. discriminate.
  - intro Hlt. destruct (Qle_bool _ 24) eqn:Hq; [|reflexivity].
    apply Qle_bool_iff in Hq. unfold Qle, Qdiv, Qmult, Qinv in Hq. simpl in Hq. lia.
Qed.

Lemma statusIs_unique (record : Row) (s t : string) :
  statusIs record s = true -> s <> t -> statusIs record t = false.
Proof.
  unfold statusIs. destruct (get record "status") as [x|]; [|discriminate].
  intros H Hne. apply String.eqb_eq in H. subst x.
  apply String.eqb_neq. exact Hne.
Qed.

(** What the code does for a planned leave whose informed_time parses:
    the row gets the informed_time message exactly when the informed
    time is after the leave date. *)
Lemma planned_leave_rule
    (newDate : string -> JsDate) (record : Row) (p informed : Z) :
  statusIs record "Planned Leave" = true ->
  falsy (get record "informed_time") = false ->
  newDate (text (get record "informed_time")) = DateOf informed ->
  (informedTimeErrors newDate record (DateOf p)
   = if (p <? informed)%Z
     then ["informed_time must be before the leave date for planned leave"]
     else []).
Proof.
  intros Hs Hf Hd. unfold informedTimeErrors.
  rewrite Hs, Hf, Hd.
  rewrite (statusIs_unique record "Planned Leave" "Unplanned Leave" Hs)
    by discriminate.
  cbn [orb andb dateGt]. destruct (p <? informed)%Z; reflexivity.
Qed.

(** For an unplanned leave whose informed_time parses the row gets the
    informed_time message exactly when the two times are more than 24
    hours apart. *)
Lemma unplanned_leave_rule
    (newDate : string -> JsDate) (record : Row) (p informed : Z) :
  statusIs record "Unplanned Leave" = true ->
  falsy (get record "informed_time") = false ->
  newDate (text (get record "informed_time")) = DateOf informed ->
  (informedTimeErrors newDate record (DateOf p) <> []
   <-> (24 * (1000 * 60 * 60) < Z.abs (p - informed))%Z).
Proof.
  intros Hs Hf Hd. unfold informedTimeErrors.
  rewrite Hs, Hf, Hd.
  rewrite (statusIs_unique record "Unplanned Leave" "Planned Leave" Hs)
    by discriminate.
  cbn [orb andb]. rewrite <- exceeds24_spec.
  destruct (exceeds24 (hoursBetween (DateOf p) informed)); split; intro H;
    try reflexivity; try discriminate; try congruence.
Qed.

(** C1, at the input where the code departs from it.  A planned leave
    announced at the very instant its leave date starts is not strictly
    before that date, and the row collects no message at all: the test
    of the code is [informedDate > parsedDate]. *)
Theorem C1_planned_notice_at_leave_date :
  statusIs midnightNotice "Planned Leave" = true
  /\ UtcHost.parseDate (get midnightNotice "date") = DateOf 1709510400000
  /\ UtcHost.newDate (text (get midnightNotice "informed_time"))
     = DateOf 1709510400000
  /\ informedTimeErrors UtcHost.newDate midnightNotice
       (UtcHost.parseDate (get midnightNotice "date")) = []
  /\ fieldErrors UtcHost.parseDate UtcHost.isWeekend UtcHost.newDate
       midnightNotice = []
  /\ (exists r : ParseResult,
        UtcHost.validate [midnightNotice] = Ok r
        /\ validRecords r
           = [normalize UtcHost.parseDate UtcHost.newDate midnightNotice]).
Proof.
  repeat split; try reflexivity.
  eexists. split; [vm_compute; reflexivity|]. reflexivity.
Qed.

(** ** The groups of the volume check *)

Lemma pushTo_keys (g : Groups) (k : string) (v : ValidRecord) :
  map fst (pushTo g k v)
  = if includes (map fst g) k then map fst g else map fst g ++ [k].
Proof.
  induction g as [|[k' rs] g IH]; [reflexivity|].
  cbn [pushTo map fst includes existsb].
  unfold includes in IH. rewrite (String.eqb_sym k k').
  destruct (String.eqb k' k) eqn:E; cbn [orb map fst]; [reflexivity|].
  rewrite IH. destruct (existsb (String.eqb k) (map fst g)); reflexivity.
Qed.

Lemma pushTo_In (g : Groups) (k : string) (v : ValidRecord)
    (k' : string) (rs' : list ValidRecord) :
  NoDup (map fst g) ->
  (In (k', rs') (pushTo g k v)
   <-> (k' <> k /\ In (k', rs') g)
       \/ (k' = k /\ ((exists rs, In (k, rs) g /\ rs' = rs ++ [v])
                      \/ (~ In k (map fst g) /\ rs' = [v])))).
Proof.
  induction g as [|[k0 rs0] g IH]; intro Hnd.
  - cbn. split.
    + intros [H|[]]. injection H as <- <-. right. split; [reflexivity|].
      right. split; [tauto | reflexivity].
    + intros [[_ []]|[-> [[rs [[] _]]|[_ ->]]]]. left. reflexivity.
  - cbn [map fst] in Hnd. inversion Hnd as [|? ? Hnot Hnd']; subst.
    cbn [pushTo]. destruct (String.eqb k0 k) eqn:E.
    + apply String.eqb_eq in E. subst k0. cbn [In map fst]. split.
      * intros [H|H].
        -- injection H as <- <-. right. split; [reflexivity|].
           left. exists rs0. split; [left; reflexivity | reflexivity].
        -- left. split; [|right; exact H].
           intros ->. apply Hnot. apply (in_map fst) in H. exact H.
      * intros [[Hne [H|H]]|[-> [[rs [[H|H] ->]]|[Hn _]]]].
        -- injection H as -> _. contradiction.
        -- right. exact H.
        -- injection H as ->. left. reflexivity.
        -- exfalso. apply Hnot. apply (in_map fst) in H. exact H.
        -- exfalso. apply Hn. left. reflexivity.
    + apply String.eqb_neq in E. cbn [In map fst]. rewrite (IH Hnd'). split.
      * intros [H|[[Hne H]|[-> [[rs [H ->]]|[Hn ->]]]]].
        -- injection H as <- <-. left. split; [exact E | left; reflexivity].
        -- left. split; [exact Hne | right; exact H].
        -- right. split; [reflexivity|]. left. exists rs.
           split; [right; exact H | reflexivity].
        -- right. split; [reflexivity|]. right. split; [|reflexivity].
           intros [H|H]; [contradiction | exact (Hn H)].
      * intros [[Hne [H|H]]|[-> [[rs [[H|H] ->]]|[Hn ->]]]].
        -- left. exact H.
        -- right. left. split; assumption.
        -- injection H as H _. contradiction.
        -- right. right. split; [reflexivity|]. left. exists rs.
           split; [exact H | reflexivity].
        -- right. right. split; [reflexivity|]. right. split; [|reflexivity].
           intro H. apply Hn. right. exact H.
Qed.

Lemma pushTo_NoDup (g : Groups) (k : string) (v : ValidRecord) :
  NoDup (map fst g) -> NoDup (map fst (pushTo g k v)).
Proof.
  intro Hnd. rewrite pushTo_keys.
  destruct (includes (map fst g) k) eqn:E; [exact Hnd|].
  apply includes_not_In in E.
  apply NoDup_app; [exact Hnd | constructor; [tauto | constructor] |].
  intros x Hx [<-|[]]. exact (E Hx).
Qed.

Lemma groupByEmployee_snoc (vs : list ValidRecord) (v : ValidRecord) :
  groupByEmployee (vs ++ [v]) = groupRecord (groupByEmployee vs) v.
Proof. unfold groupByEmployee. rewrite fold_left_app. reflexivity. Qed.

Lemma filter_snoc (A : Type) (f : A -> bool) (l : list A) (x : A) :
  filter f (l ++ [x]) = filter f l ++ (if f x then [x] else []).
Proof. rewrite filter_app. reflexivity. Qed.

Lemma groupByEmployee_spec (vs : list ValidRecord) (g : Groups) :
  groupByEmployee vs = Ok g -> groupsOf vs g.
Proof.
  revert g. induction vs as [|v vs IH] using rev_ind; intros g' H.
  - injection H as <-. split; [constructor|].
    intros k rs. cbn. split; [tauto | intros [-> Hne]; apply Hne; reflexivity].
  - rewrite groupByEmployee_snoc in H. unfold groupRecord in H.
    destruct (groupByEmployee vs) as [g|m]; [|discriminate].
    destruct (includes objectPrototypeKeys (employeeId v)); [discriminate|].
    injection H as <-. destruct (IH g eq_refl) as [Hnd Hin].
    split; [apply pushTo_NoDup; exact Hnd|].
    intros k' rs'. rewrite (pushTo_In g (employeeId v) v k' rs' Hnd).
    rewrite filter_snoc. unfold sameEmployee at 2.
    split.
    + intros [[Hne H]|[-> [[rs [H ->]]|[Hn ->]]]].
      * apply Hin in H. destruct H as [-> Hrs].
        apply not_eq_sym, String.eqb_neq in Hne. rewrite Hne.
        rewrite app_nil_r. split; [reflexivity | exact Hrs].
      * apply Hin in H. destruct H as [-> _].
        rewrite String.eqb_refl. split; [reflexivity|].
        intro E. apply app_eq_nil in E. destruct E as [_ E]. discriminate.
      * rewrite String.eqb_refl.
        destruct (filter (sameEmployee (employeeId v)) vs) as [|x xs] eqn:E.
        -- split; [reflexivity | discriminate].
        -- exfalso. apply Hn.
           assert (Hx : In (employeeId v, x :: xs) g).
           { apply Hin. split; [symmetry; exact E | discriminate]. }
           apply (in_map fst) in Hx. exact Hx.
    + intros [-> Hne].
      destruct (String.eqb (employeeId v) k') eqn:E.
      * apply String.eqb_eq in E. subst k'. right. split; [reflexivity|].
        destruct (filter (sameEmployee (employeeId v)) vs) as [|x xs] eqn:Ef.
        -- right. split; [|reflexivity]. intro Hk.
           apply in_map_iff in Hk. destruct Hk as [[k rs] [Ek Hk]].
           cbn in Ek. subst k. apply Hin in Hk. destruct Hk as [-> Hk].
           apply Hk. exact Ef.
        -- left. exists (x :: xs). split; [|reflexivity].
           apply Hin. split; [symmetry; exact Ef | discriminate].
      * left. rewrite app_nil_r in *. split.
        -- intros ->. rewrite String.eqb_refl in E. discriminate.
        -- apply Hin. split; [reflexivity | exact Hne].
Qed.

Lemma groupByEmployee_returns (vs : list ValidRecord) :
  plainEmployeeIds vs -> exists g : Groups, groupByEmployee vs = Ok g.
Proof.
  unfold plainEmployeeIds.
  induction vs as [|v vs IH] using rev_ind; intro H.
  - exists []. reflexivity.
  - apply Forall_app in H. destruct H as [Hvs Hv].
    destruct (IH Hvs) as [g Hg].
    rewrite groupByEmployee_snoc, Hg. unfold groupRecord.
    inversion Hv as [|? ? Hp _]; subst. rewrite Hp.
    eexists. reflexivity.
Qed.

Lemma groupByEmployee_throws (vs : list ValidRecord) (m : string) :
  groupByEmployee vs = Throw m ->
  m = "employeeGroups[record.employeeId].push is not a function"
  /\ exists v, In v vs /\ In (employeeId v) objectPrototypeKeys.
Proof.
  induction vs as [|v vs IH] using rev_ind; intro H; [discriminate|].
  rewrite groupByEmployee_snoc in H. unfold groupRecord in H.
  destruct (groupByEmployee vs) as [g|m'].
  - destruct (includes objectPrototypeKeys (employeeId v)) eqn:E; [|discriminate].
    injection H as <-. split; [reflexivity|].
    exists v. split; [apply in_or_app; right; left; reflexivity|].
    apply includes_In. exact E.
  - injection H as <-. destruct (IH eq_refl) as [Hm [v' [Hin Hp]]].
    split; [exact Hm|]. exists v'. split; [|exact Hp].
    apply in_or_app. left. exact Hin.
Qed.

(** ** The entries of the groups and the volume errors *)

Lemma filter_split_perm (A : Type) (f : A -> bool) (l : list A) :
  Permutation (filter f l ++ filter (fun x => negb (f x)) l) l.
Proof.
  induction l as [|x l IH]; [constructor|].
  cbn [filter]. destruct (f x); cbn [negb app].
  - constructor. exact IH.
  - rewrite <- Permutation_middle. constructor. exact IH.
Qed.

Lemma objectEntries_perm (g : Groups) : Permutation (objectEntries g) g.
Proof.
  unfold objectEntries.
  rewrite <- (EngineFacts.sortBy_perm indexBefore (filter isIndexKey g)).
  apply filter_split_perm.
Qed.

Lemma volumeErrors_perm (g : Groups) :
  Permutation (volumeErrors g) (flat_map volumeError g).
Proof.
  unfold volumeErrors. apply Permutation_flat_map, objectEntries_perm.
Qed.

Lemma volumeError_In (entry : string * list ValidRecord) (e : ErrorEntry) :
  In e (volumeError entry)
  <-> e = EmployeeError (fst entry) [volumeMessage (List.length (snd entry))]
      /\ outOfRange (List.length (snd entry)) = true.
Proof.
  destruct entry as [k rs]. cbn [volumeError fst snd].
  destruct (outOfRange (List.length rs)); cbn [In].
  - split; [intros [<-|[]]; tauto | intros [-> _]; left; reflexivity].
  - split; [tauto | intros [_ H]; discriminate].
Qed.

Lemma flat_volumeError_NoDup (g : Groups) :
  NoDup (map fst g) -> NoDup (flat_map volumeError g).
Proof.
  induction g as [|[k rs] g IH]; intro Hnd; [constructor|].
  cbn [map fst] in Hnd. inversion Hnd as [|? ? Hnot Hnd']; subst.
  cbn [flat_map]. unfold volumeError at 1.
  destruct (outOfRange (List.length rs)); [|exact (IH Hnd')].
  cbn [app]. constructor; [|exact (IH Hnd')].
  intro H. apply in_flat_map in H. destruct H as [[k' rs'] [Hin He]].
  apply volumeError_In in He. destruct He as [He _]. cbn [fst snd] in He.
  injection He as <- _. apply Hnot. apply (in_map fst) in Hin. exact Hin.
Qed.

Lemma volumeErrors_spec (vs : list ValidRecord) (g : Groups) (e : ErrorEntry) :
  groupsOf vs g ->
  (In e (volumeErrors g)
   <-> exists employee : string,
         e = EmployeeError employee [volumeMessage (daysOf employee vs)]
         /\ (0 < daysOf employee vs)%nat
         /\ outOfRange (daysOf employee vs) = true).
Proof.
  intros [Hnd Hin]. unfold daysOf.
  assert (Hperm : In e (volumeErrors g) <-> In e (flat_map volumeError g)).
  { split; apply Permutation_in;
      [exact (volumeErrors_perm g) | exact (Permutation_sym (volumeErrors_perm g))]. }
  rewrite Hperm, in_flat_map.
  split.
  - intros [[k rs] [Hg He]]. apply volumeError_In in He. cbn [fst snd] in He.
    apply Hin in Hg. destruct Hg as [-> Hne]. destruct He as [-> Hout].
    exists k. split; [reflexivity|]. split; [|exact Hout].
    destruct (filter (sameEmployee k) vs); [contradiction | cbn; lia].
  - intros [k [-> [Hpos Hout]]].
    exists (k, filter (sameEmployee k) vs). split.
    + apply Hin. split; [reflexivity|]. intro E. rewrite E in Hpos. cbn in Hpos. lia.
    + apply volumeError_In. cbn [fst snd]. split; [reflexivity | exact Hout].
Qed.

Lemma volumeErrors_NoDup (vs : list ValidRecord) (g : Groups) :
  groupsOf vs g -> NoDup (volumeErrors g).
Proof.
  intros [Hnd _].
  apply (Permutation_NoDup (Permutation_sym (volumeErrors_perm g))).
  apply flat_volumeError_NoDup. exact Hnd.
Qed.

Lemma groupByEmployee_plain (vs : list ValidRecord) (g : Groups) :
  groupByEmployee vs = Ok g -> plainEmployeeIds vs.
Proof.
  unfold plainEmployeeIds. intro H.
  destruct (Forall_Exists_dec
              (fun v => includes objectPrototypeKeys (employeeId v) = false)
              (fun v => bool_dec _ false) vs) as [Hall|Hex]; [exact Hall|].
  exfalso. revert g H. induction vs as [|v vs IH] using rev_ind; intros g H.
  - inversion Hex.
  - rewrite groupByEmployee_snoc in H. unfold groupRecord in H.
    destruct (groupByEmployee vs) as [g'|m] eqn:Hg; [|discriminate].
    destruct (includes objectPrototypeKeys (employeeId v)) eqn:E; [discriminate|].
    apply Exists_app in Hex. destruct Hex as [Hex|Hex].
    + exact (IH Hex g' eq_refl).
    + inversion Hex as [? ? Hv|? ? Hnil]; subst; [congruence | inversion Hnil].
Qed.


Lemma twoDays_result :
  exists r : ParseResult,
    UtcHost.validate twoDays = Ok r
    /\ List.length (validRecords r) = 2%nat
    /\ errors r = [EmployeeError "E7" [volumeMessage 2]].
Proof. eexists. split; [vm_compute; reflexivity|]. split; reflexivity. Qed.


(** C8, on a file it fails on.  One well-formed row of an employee
    called constructor passes the per-row validation and is kept; the
    volume check then reads the inherited property of that name off the
    fresh object, creates no array and calls push on a function: the run
    throws a TypeError, so no employee error is appended for the one day
    of that employee and no validRecords is returned at all. *)
Theorem C8_volume_check_throws :
  let st := forEachRecord UtcHost.parseDate UtcHost.isWeekend UtcHost.newDate
              inheritedName 0 initialState in
  s_errors st = []
  /\ s_validRecords st = map (normalize UtcHost.parseDate UtcHost.newDate) inheritedName
  /\ map employeeId (s_validRecords st) = ["constructor"]
  /\ outOfRange (daysOf "constructor" (s_validRecords st)) = true
  /\ UtcHost.validate inheritedName
     = Throw "employeeGroups[record.employeeId].push is not a function".
Proof. vm_compute. repeat split; reflexivity. Qed.

(** ** The per-row loop *)

Section Loop.

Variable parseDate : option string -> JsDate.
Variable isWeekend : Z -> bool.
Variable newDate : string -> JsDate.

Local Abbreviation fieldErrors := (FileParser.fieldErrors parseDate isWeekend newDate).
Local Abbreviation verdict := (ParserNotions.verdict parseDate isWeekend newDate).
Local Abbreviation reportFrom := (ParserNotions.reportFrom parseDate isWeekend newDate).
Local Abbreviation keptFrom := (ParserNotions.keptFrom parseDate isWeekend newDate).
Local Abbreviation forEachRecord := (FileParser.forEachRecord parseDate isWeekend newDate).
Local Abbreviation validateRecord := (FileParser.validateRecord parseDate isWeekend newDate).
Local Abbreviation normalize := (FileParser.normalize parseDate newDate).
Local Abbreviation passesFields := (ParserNotions.passesFields parseDate isWeekend newDate).

Lemma includes_app (l1 l2 : list string) (x : string) :
  includes (l1 ++ l2) x = includes l1 x || includes l2 x.
Proof. unfold includes. apply existsb_app. Qed.

Lemma includes_single (x y : string) : includes [y] x = String.eqb x y.
Proof. unfold includes. cbn. apply orb_false_r. Qed.

Lemma length_nonempty (A : Type) (l : list A) :
  Nat.ltb 0 (List.length l) = match l with [] => false | _ => true end.
Proof. destruct l; reflexivity. Qed.

(** One step of the loop, in terms of the rows seen so far. *)
Lemma validateRecord_spec (earlier : list Row) (st : State) (record : Row) :
  (forall k, includes (s_seenKeys st) k = includes (map keyOf earlier) k) ->
  let st' := validateRecord st record (List.length earlier) in
  s_errors st' = s_errors st ++ reportFrom earlier [record]
  /\ s_validRecords st' = s_validRecords st ++ map normalize (keptFrom earlier [record])
  /\ (forall k, includes (s_seenKeys st') k
                = includes (map keyOf (earlier ++ [record])) k).
Proof.
  intros Hseen st'. unfold st', validateRecord.
  rewrite length_nonempty, Hseen.
  cbn [reportFrom keptFrom]. unfold ParserNotions.verdict.
  rewrite !app_nil_r.
  assert (Hkeys : forall k,
             includes (if includes (map keyOf earlier) (keyOf record)
                       then s_seenKeys st
                       else s_seenKeys st ++ [keyOf record]) k
             = includes (map keyOf (earlier ++ [record])) k).
  { intro k. rewrite map_app, includes_app. cbn [map]. rewrite includes_single.
    destruct (includes (map keyOf earlier) (keyOf record)) eqn:E.
    - rewrite Hseen. destruct (String.eqb k (keyOf record)) eqn:Ek.
      + apply String.eqb_eq in Ek. subst k. rewrite E. reflexivity.
      + rewrite orb_false_r. reflexivity.
    - rewrite includes_app, includes_single, Hseen. reflexivity. }
  destruct (fieldErrors record
            ++ (if includes (map keyOf earlier) (keyOf record)
                then [duplicateError] else [])) as [|m ms];
    cbn [s_errors s_validRecords s_seenKeys map];
    rewrite ?app_nil_r; repeat split; try reflexivity; exact Hkeys.
Qed.

Lemma reportFrom_cons (earlier : list Row) (record : Row) (rest : list Row) :
  reportFrom earlier (record :: rest)
  = reportFrom earlier [record] ++ reportFrom (earlier ++ [record]) rest.
Proof. cbn [reportFrom]. rewrite app_nil_r. reflexivity. Qed.

Lemma keptFrom_cons (earlier : list Row) (record : Row) (rest : list Row) :
  keptFrom earlier (record :: rest)
  = keptFrom earlier [record] ++ keptFrom (earlier ++ [record]) rest.
Proof. cbn [keptFrom]. rewrite app_nil_r. reflexivity. Qed.

(** The whole loop: what it adds to the errors and to the valid records. *)
Lemma forEachRecord_spec (records earlier : list Row) (st : State) :
  (forall k, includes (s_seenKeys st) k = includes (map keyOf earlier) k) ->
  let st' := forEachRecord records (List.length earlier) st in
  s_errors st' = s_errors st ++ reportFrom earlier records
  /\ s_validRecords st' = s_validRecords st ++ map normalize (keptFrom earlier records).
Proof.
  revert earlier st. induction records as [|record rest IH]; intros earlier st Hseen.
  - cbn. rewrite !app_nil_r. split; reflexivity.
  - cbn [FileParser.forEachRecord].
    destruct (validateRecord_spec earlier st record Hseen) as [He [Hv Hk]].
    specialize (IH (earlier ++ [record])
                   (validateRecord st record (List.length earlier)) Hk).
    rewrite length_app, Nat.add_1_r in IH. cbn zeta in IH.
    destruct IH as [IHe IHv]. cbn zeta.
    rewrite (reportFrom_cons earlier record rest), (keptFrom_cons earlier record rest).
    rewrite IHe, IHv, He, Hv, map_app, !app_assoc.
    split; reflexivity.
Qed.

End Loop.

(** ** Duplicates *)

Section Duplicates.

Variable parseDate : option string -> JsDate.
Variable isWeekend : Z -> bool.
Variable newDate : string -> JsDate.

Local Abbreviation fieldErrors := (FileParser.fieldErrors parseDate isWeekend newDate).
Local Abbreviation verdict := (ParserNotions.verdict parseDate isWeekend newDate).
Local Abbreviation reportFrom := (ParserNotions.reportFrom parseDate isWeekend newDate).
Local Abbreviation keptFrom := (ParserNotions.keptFrom parseDate isWeekend newDate).
Local Abbreviation passesFields := (ParserNotions.passesFields parseDate isWeekend newDate).

Lemma requiredField_no_duplicate (v : option string) (limit : nat)
    (required tooLong : string) :
  String.eqb duplicateError required = false ->
  String.eqb duplicateError tooLong = false ->
  includes (requiredField v limit required tooLong) duplicateError = false.
Proof.
  intros H1 H2. unfold requiredField.
  destruct (falsy v || String.eqb (trim (text v)) "").
  - rewrite includes_single. exact H1.
  - destruct (Nat.ltb limit (String.length (text v))); [|reflexivity].
    rewrite includes_single. exact H2.
Qed.

(** No field check words its message like the duplicate check. *)
Lemma fieldErrors_no_duplicate (record : Row) :
  includes (fieldErrors record) duplicateError = false.
Proof.
  unfold FileParser.fieldErrors. rewrite !includes_app.
  unfold employeeIdErrors, employeeNameErrors, departmentErrors.
  rewrite !requiredField_no_duplicate by reflexivity.
  cbn [orb].
  assert (Hd : includes (dateErrors isWeekend (parseDate (get record "date")))
                 duplicateError = false).
  { unfold dateErrors. destruct (parseDate (get record "date")) as [t|];
      [destruct (isWeekend t)|]; reflexivity. }
  assert (Hs : includes (statusErrors record) duplicateError = false).
  { unfold statusErrors. destruct (get record "status") as [s|];
      [destruct (includes VALID_STATUSES s)|]; reflexivity. }
  assert (Hi : includes (informedTimeErrors newDate record
                           (parseDate (get record "date")))
                 duplicateError = false).
  { unfold informedTimeErrors.
    destruct (statusIs record "Planned Leave" || statusIs record "Unplanned Leave");
      [|reflexivity].
    destruct (falsy (get record "informed_time")); [reflexivity|].
    destruct (newDate (text (get record "informed_time"))) as [informed|];
      [|reflexivity].
    destruct (statusIs record "Planned Leave"
              && dateGt (DateOf informed) (parseDate (get record "date")));
      [reflexivity|].
    destruct (statusIs record "Unplanned Leave"); [|reflexivity].
    destruct (exceeds24 (hoursBetween (parseDate (get record "date")) informed));
      reflexivity. }
  assert (Hm : includes (managerEmailErrors record) duplicateError = false).
  { unfold managerEmailErrors.
    destruct (falsy (get record "manager_email")
              || negb (emailRegexTest (text (get record "manager_email"))));
      reflexivity. }
  rewrite Hd, Hs, Hi, Hm. reflexivity.
Qed.

Lemma verdict_cites (earlier : list Row) (record : Row) :
  includes (verdict earlier record) duplicateError
  = includes (map keyOf earlier) (keyOf record).
Proof.
  unfold ParserNotions.verdict.
  rewrite includes_app, fieldErrors_no_duplicate. cbn [orb].
  destruct (includes (map keyOf earlier) (keyOf record)); reflexivity.
Qed.

Lemma verdict_nil (earlier : list Row) (record : Row) :
  verdict earlier record = []
  <-> passesFields record = true
      /\ includes (map keyOf earlier) (keyOf record) = false.
Proof.
  unfold ParserNotions.verdict, ParserNotions.passesFields.
  destruct (fieldErrors record) as [|m ms];
    destruct (includes (map keyOf earlier) (keyOf record)); cbn [app];
    split; try tauto; try discriminate; intros [H1 H2]; discriminate.
Qed.

Lemma includes_keys_snoc (earlier : list Row) (record : Row) (k : string) :
  includes (map keyOf (earlier ++ [record])) k
  = includes (map keyOf earlier) k || hasKey k record.
Proof.
  rewrite map_app, includes_app. cbn [map]. rewrite includes_single.
  unfold hasKey. rewrite (String.eqb_sym k). reflexivity.
Qed.

(** The kept rows with a given key: the first row with that key, when
    no earlier row has it and it passes the field checks. *)
Lemma kept_with_key (k : string) (records earlier : list Row) :
  filter (hasKey k) (keptFrom earlier records)
  = if includes (map keyOf earlier) k then []
    else match find (hasKey k) records with
         | Some first => if passesFields first then [first] else []
         | None => []
         end.
Proof.
  revert earlier. induction records as [|r rest IH]; intro earlier.
  - cbn. destruct (includes (map keyOf earlier) k); reflexivity.
  - cbn [ParserNotions.keptFrom find]. rewrite filter_app, IH, includes_keys_snoc.
    destruct (hasKey k r) eqn:Hk.
    + assert (Ek : keyOf r = k) by (apply String.eqb_eq; exact Hk).
      rewrite orb_true_r, app_nil_r.
      destruct (includes (map keyOf earlier) k) eqn:Hin.
      * destruct (verdict earlier r) eqn:Hv; [|reflexivity].
        apply verdict_nil in Hv. rewrite Ek in Hv. destruct Hv as [_ Hv].
        rewrite Hv in Hin. discriminate.
      * destruct (passesFields r) eqn:Hp.
        -- assert (Hv : verdict earlier r = []).
           { apply verdict_nil. rewrite Ek. split; assumption. }
           rewrite Hv. cbn [filter]. rewrite Hk. reflexivity.
        -- destruct (verdict earlier r) eqn:Hv; [|reflexivity].
           apply verdict_nil in Hv. destruct Hv as [Hv _].
           rewrite Hv in Hp. discriminate.
    + rewrite orb_false_r.
      assert (Hhead : filter (hasKey k)
                        (match verdict earlier r with [] => [r] | _ => [] end) = []).
      { destruct (verdict earlier r); [|reflexivity].
        cbn [filter]. rewrite Hk. reflexivity. }
      rewrite Hhead. reflexivity.
Qed.

Lemma reportFrom_app (pre rest earlier : list Row) :
  reportFrom earlier (pre ++ rest)
  = reportFrom earlier pre ++ reportFrom (earlier ++ pre) rest.
Proof.
  revert earlier. induction pre as [|r pre IH]; intro earlier.
  - cbn. rewrite app_nil_r. reflexivity.
  - cbn [app ParserNotions.reportFrom]. rewrite IH, <- !app_assoc. reflexivity.
Qed.

(** A row whose key an earlier row carries is reported as a duplicate. *)
Lemma later_occurrence_reported (pre post : list Row) (r : Row) :
  In (keyOf r) (map keyOf pre) ->
  In (RowError (List.length pre + 2) (fieldErrors r ++ [duplicateError]))
     (reportFrom [] (pre ++ r :: post)).
Proof.
  intro Hin. apply includes_In in Hin.
  rewrite reportFrom_app. apply in_or_app. right.
  cbn [app ParserNotions.reportFrom]. unfold ParserNotions.verdict.
  rewrite Hin. apply in_or_app. left.
  destruct (fieldErrors r ++ [duplicateError]) as [|m ms] eqn:E.
  - apply app_eq_nil in E. destruct E as [_ E]. discriminate.
  - left. reflexivity.
Qed.

End Duplicates.

Section DuplicateReports.

Variable parseDate : option string -> JsDate.
Variable isWeekend : Z -> bool.
Variable newDate : string -> JsDate.

Local Abbreviation fieldErrors := (FileParser.fieldErrors parseDate isWeekend newDate).
Local Abbreviation verdict := (ParserNotions.verdict parseDate isWeekend newDate).
Local Abbreviation reportFrom := (ParserNotions.reportFrom parseDate isWeekend newDate).
Local Abbreviation keptFrom := (ParserNotions.keptFrom parseDate isWeekend newDate).
Local Abbreviation passesFields := (ParserNotions.passesFields parseDate isWeekend newDate).

Lemma occurrences_cons (k : string) (r : Row) (rest : list Row) :
  occurrences k (r :: rest)
  = ((if hasKey k r then 1 else 0) + occurrences k rest)%nat.
Proof.
  unfold occurrences. cbn [filter]. destruct (hasKey k r); reflexivity.
Qed.

Lemma head_report (k : string) (earlier : list Row) (r : Row) (rest : list Row) :
  List.length
    (duplicateReports (earlier ++ r :: rest) k
       (match verdict earlier r with
        | [] => []
        | messages => [RowError (List.length earlier + 2) messages]
        end))
  = if includes (map keyOf earlier) (keyOf r) && hasKey k r then 1%nat else 0%nat.
Proof.
  pose proof (verdict_cites parseDate isWeekend newDate earlier r) as Hc.
  destruct (verdict earlier r) as [|m ms] eqn:Hv.
  - cbn in Hc. rewrite <- Hc. reflexivity.
  - unfold duplicateReports. cbn [filter citesDuplicate aboutKey].
    rewrite Hc.
    replace (List.length earlier + 2 - 2)%nat with (List.length earlier + 0)%nat
      by lia.
    rewrite nth_error_app2 by lia.
    replace (List.length earlier + 0 - List.length earlier)%nat with 0%nat by lia.
    cbn [nth_error].
    destruct (includes (map keyOf earlier) (keyOf r) && hasKey k r); reflexivity.
Qed.

(** The rows of a key rejected as duplicates are all its rows but the
    first one. *)
Lemma duplicate_count (k : string) (records earlier : list Row) :
  (List.length (duplicateReports (earlier ++ records) k (reportFrom earlier records))
   + (if includes (map keyOf earlier) k then 0
      else if Nat.ltb 0 (occurrences k records) then 1 else 0)
   = occurrences k records)%nat.
Proof.
  revert earlier. induction records as [|r rest IH]; intro earlier.
  - cbn. destruct (includes (map keyOf earlier) k); reflexivity.
  - cbn [ParserNotions.reportFrom]. unfold duplicateReports at 1.
    rewrite filter_app, length_app.
    fold (duplicateReports (earlier ++ r :: rest) k
            (match verdict earlier r with
             | [] => []
             | messages => [RowError (List.length earlier + 2) messages]
             end)).
    fold (duplicateReports (earlier ++ r :: rest) k (reportFrom (earlier ++ [r]) rest)).
    rewrite head_report, occurrences_cons.
    specialize (IH (earlier ++ [r])).
    rewrite <- app_assoc in IH. cbn [app] in IH.
    rewrite includes_keys_snoc in IH.
    destruct (hasKey k r) eqn:Hk.
    + assert (Ek : keyOf r = k) by (apply String.eqb_eq; exact Hk).
      rewrite Ek. rewrite orb_true_r in IH.
      destruct (includes (map keyOf earlier) k); cbn [andb Nat.ltb Nat.leb Nat.add];
        lia.
    + rewrite andb_false_r. rewrite orb_false_r in IH. cbn [Nat.add]. exact IH.
Qed.

(** The duplicate check, on the strings the code compares.  Every row
    whose key an earlier row carries is reported as a duplicate, so of
    the rows of one key all but the first are; the records of
    validRecords are those of the rows that collect no message, at most
    one for each key: the first row of the key when it passes the field
    checks, and none when it does not. *)
Lemma duplicates_by_key (records : list Row) (k : string) :
  let st := forEachRecord parseDate isWeekend newDate records 0 initialState in
  (forall (pre post : list Row) (r : Row),
      records = pre ++ r :: post ->
      In (keyOf r) (map keyOf pre) ->
      In (RowError (List.length pre + 2) (fieldErrors r ++ [duplicateError]))
         (s_errors st))
  /\ s_validRecords st = map (normalize parseDate newDate) (keptFrom [] records)
  /\ filter (hasKey k) (keptFrom [] records)
     = match find (hasKey k) records with
       | Some first => if passesFields first then [first] else []
       | None => []
       end
  /\ List.length (duplicateReports records k (s_errors st))
     = (occurrences k records - 1)%nat.
Proof.
  intro st.
  destruct (forEachRecord_spec parseDate isWeekend newDate records [] initialState)
    as [He Hv]; [reflexivity|].
  cbn [List.length initialState s_errors s_validRecords app] in He, Hv.
  fold st in He, Hv.
  split; [|split; [exact Hv|split]].
  - intros pre post r -> Hin. rewrite He.
    apply later_occurrence_reported. exact Hin.
  - exact (kept_with_key parseDate isWeekend newDate k records []).
  - rewrite He. pose proof (duplicate_count k records []) as H.
    cbn [map includes existsb app] in H.
    destruct (Nat.ltb 0 (occurrences k records)) eqn:E.
    + apply Nat.ltb_lt in E. lia.
    + apply Nat.ltb_ge in E. lia.
Qed.

(** *** From the strings to the pairs *)

Local Abbreviation pairOf := (ParserNotions.pairOf parseDate newDate).
Local Abbreviation hasPair := (ParserNotions.hasPair parseDate newDate).
Local Abbreviation keysIdentifyPairs := (ParserNotions.keysIdentifyPairs parseDate newDate).
Local Abbreviation pairOccurrences := (ParserNotions.pairOccurrences parseDate newDate).
Local Abbreviation aboutPair := (ParserNotions.aboutPair parseDate newDate).
Local Abbreviation pairReports := (ParserNotions.pairReports parseDate newDate).

Lemma sameDate_eq (a b : JsDate) : sameDate a b = true <-> a = b.
Proof.
  destruct a as [x|], b as [y|]; cbn; try (split; [discriminate | discriminate]);
    try tauto.
  rewrite Z.eqb_eq. split; [intros ->; reflexivity | intro H; injection H; tauto].
Qed.

Lemma samePair_eq (p q : string * JsDate) : samePair p q = true <-> p = q.
Proof.
  destruct p as [e1 d1], q as [e2 d2]. unfold samePair. cbn [fst snd].
  rewrite andb_true_iff, String.eqb_eq, sameDate_eq.
  split; [intros [-> ->]; reflexivity | intro H; injection H; tauto].
Qed.

Lemma samePair_right (p q q' : string * JsDate) :
  samePair q q' = true -> samePair p q = samePair p q'.
Proof. intro H. apply samePair_eq in H. subst q'. reflexivity. Qed.

Lemma keysIdentifyPairs_spec (records : list Row) (r1 r2 : Row) :
  keysIdentifyPairs records = true -> In r1 records -> In r2 records ->
  String.eqb (keyOf r1) (keyOf r2) = samePair (pairOf r1) (pairOf r2).
Proof.
  unfold ParserNotions.keysIdentifyPairs. intros H H1 H2.
  rewrite forallb_forall in H. specialize (H r1 H1).
  rewrite forallb_forall in H. specialize (H r2 H2).
  apply Bool.eqb_prop in H. exact H.
Qed.

Lemma recordHasPair_normalize (p : string * JsDate) (r : Row) :
  recordHasPair p (normalize parseDate newDate r) = hasPair p r.
Proof. reflexivity. Qed.

Lemma filter_map_normalize (p : string * JsDate) (rows : list Row) :
  filter (recordHasPair p) (map (normalize parseDate newDate) rows)
  = map (normalize parseDate newDate) (filter (hasPair p) rows).
Proof.
  induction rows as [|r rows IH]; [reflexivity|].
  cbn [map filter]. rewrite recordHasPair_normalize.
  destruct (hasPair p r); cbn [map]; rewrite IH; reflexivity.
Qed.

Lemma keptFrom_incl (records earlier : list Row) (r : Row) :
  In r (keptFrom earlier records) -> In r records.
Proof.
  revert earlier. induction records as [|x rest IH]; intros earlier H; [exact H|].
  cbn [ParserNotions.keptFrom] in H. apply in_app_or in H. destruct H as [H|H].
  - destruct (verdict earlier x); [|contradiction].
    destruct H as [<-|[]]. left. reflexivity.
  - right. exact (IH _ H).
Qed.

Lemma find_ext_in (A : Type) (f g : A -> bool) (l : list A) :
  (forall x, In x l -> f x = g x) -> find f l = find g l.
Proof.
  induction l as [|x l IH]; intro H; [reflexivity|].
  cbn [find]. rewrite (H x (or_introl eq_refl)).
  destruct (g x); [reflexivity|]. apply IH. intros y Hy. apply H. right. exact Hy.
Qed.

Lemma find_none_filter (A : Type) (f : A -> bool) (l : list A) :
  find f l = None -> forall x, In x l -> f x = false.
Proof. intros H x Hx. exact (find_none f l H x Hx). Qed.

Lemma filter_all_false (A : Type) (f : A -> bool) (l : list A) :
  (forall x, In x l -> f x = false) -> filter f l = [].
Proof.
  induction l as [|x l IH]; intro H; [reflexivity|].
  cbn [filter]. rewrite (H x (or_introl eq_refl)).
  apply IH. intros y Hy. apply H. right. exact Hy.
Qed.

(** On a file whose keys tell the pairs apart, the rows of the pair
    of [first] are the rows that carry its key. *)
Lemma hasKey_hasPair (records : list Row) (p : string * JsDate) (first r : Row) :
  keysIdentifyPairs records = true ->
  In first records -> hasPair p first = true -> In r records ->
  hasKey (keyOf first) r = hasPair p r.
Proof.
  intros Hk Hf Hp Hr. unfold hasKey, ParserNotions.hasPair.
  rewrite (keysIdentifyPairs_spec records r first Hk Hr Hf).
  apply samePair_right. exact Hp.
Qed.

Lemma reports_ext (records : list Row) (k : string) (p : string * JsDate)
    (entries : list ErrorEntry) :
  (forall r, In r records -> hasKey k r = hasPair p r) ->
  duplicateReports records k entries = pairReports records p entries.
Proof.
  intro H. unfold duplicateReports, ParserNotions.pairReports.
  apply filter_ext. intros [n ms|e ms]; [|reflexivity].
  cbn [aboutKey ParserNotions.aboutPair].
  destruct (nth_error records (n - 2)) as [r|] eqn:E; [|reflexivity].
  rewrite (H r (nth_error_In _ _ E)). reflexivity.
Qed.

Lemma pairReports_none (records : list Row) (p : string * JsDate)
    (entries : list ErrorEntry) :
  (forall r, In r records -> hasPair p r = false) ->
  pairReports records p entries = [].
Proof.
  intro H. unfold ParserNotions.pairReports. apply filter_all_false.
  intros [n ms|e ms] _; cbn [citesDuplicate ParserNotions.aboutPair];
    [|reflexivity].
  destruct (nth_error records (n - 2)) as [r|] eqn:E.
  - rewrite (H r (nth_error_In _ _ E)). apply andb_false_r.
  - apply andb_false_r.
Qed.


End DuplicateReports.



(** X17.  The key is built from the cells as they are, the record from
    the trimmed ones: two rows whose employee_id cells differ by a trailing
    blank are both kept, as two records of one employee and one date. *)
Lemma untrimmed_ids_kept_twice :
  keysIdentifyPairs UtcHost.parseDate UtcHost.newDate untrimmedTwice = false
  /\ exists r : ParseResult,
       UtcHost.validate untrimmedTwice = Ok r
       /\ map (fun v => (employeeId v, date v)) (validRecords r)
          = [ ("E7", UtcHost.parseDate (Some "2024-03-04"));
              ("E7", UtcHost.parseDate (Some "2024-03-04")) ]
       /\ errors r = [EmployeeError "E7" [volumeMessage 2]].
Proof.
  split; [vm_compute; reflexivity|].
  eexists. split; [vm_compute; reflexivity|]. split; reflexivity.
Qed.

End ParserFacts.

(** * Further facts about the attrition engine *)

Module EngineMore.

Import JsNumber JsArray AttritionEngine EngineNotions EngineOrder EngineFacts.
Open Scope R_scope.

(** ** Classification *)

(** X1.  Classification is monotonic: a larger composite score never
    gets a lower risk level, and the bands are closed at their lower
    bounds 40 and 70. *)
Theorem riskLevel_monotone (c1 c2 : R) :
  c1 <= c2 ->
  (levelRank (determineRiskLevel c1) <= levelRank (determineRiskLevel c2))%nat
  /\ determineRiskLevel 70 = "High"
  /\ determineRiskLevel 40 = "Moderate".
Proof.
  intro H. unfold determineRiskLevel. split; [|split].
  - repeat split_geb; cbn; try lia; lra.
  - rewrite geb_intro_true by lra. reflexivity.
  - rewrite geb_intro_false by lra. rewrite geb_intro_true by lra. reflexivity.
Qed.

Lemma riskLevel_monotone_witness :
  (levelRank (determineRiskLevel 39.9) <= levelRank (determineRiskLevel 40))%nat.
Proof. apply (riskLevel_monotone 39.9 40). lra. Defined.

(** ** The order of a report *)

Section StableSort.

Context {A : Type} (key : A -> R).

Let before (a b : A) : bool := gtb (key a) (key b).

Lemma insertBy_sorted (x : A) (l : list A) :
  Sorted (fun a b => key b <= key a) l ->
  Sorted (fun a b => key b <= key a) (insertBy before x l).
Proof.
  induction l as [|y l IH]; intro Hs; cbn [insertBy].
  - repeat constructor.
  - inversion Hs as [|? ? Hl Hhd]; subst.
    unfold before at 1. destruct (gtb (key y) (key x)) eqn:E.
    + apply gtb_true in E. constructor; [exact (IH Hl)|].
      destruct l as [|z l]; cbn [insertBy].
      * constructor. lra.
      * unfold before at 1. destruct (gtb (key z) (key x)); constructor;
          [inversion Hhd; assumption | lra].
    + apply gtb_false in E. constructor; [exact Hs | constructor; exact E].
Qed.

Lemma sortBy_sorted (l : list A) :
  Sorted (fun a b => key b <= key a) (sortBy before l).
Proof.
  induction l as [|x l IH]; cbn [sortBy]; [constructor|].
  apply insertBy_sorted. exact IH.
Qed.

Lemma insertBy_class (s : R) (x : A) (l : list A) :
  let same a := if Req_dec_T (key a) s then true else false in
  filter same (insertBy before x l) = filter same (x :: l).
Proof.
  intro same. induction l as [|y l IH]; [reflexivity|].
  cbn [insertBy]. unfold before at 1.
  destruct (gtb (key y) (key x)) eqn:E; [|reflexivity].
  apply gtb_true in E. cbn [filter] in *. rewrite IH.
  unfold same. destruct (Req_dec_T (key x) s) as [Hx|Hx];
    destruct (Req_dec_T (key y) s) as [Hy|Hy]; try reflexivity.
  exfalso. lra.
Qed.

Lemma sortBy_class (s : R) (l : list A) :
  let same a := if Req_dec_T (key a) s then true else false in
  filter same (sortBy before l) = filter same l.
Proof.
  intro same. induction l as [|x l IH]; [reflexivity|].
  cbn [sortBy]. unfold same. rewrite insertBy_class. cbn [filter].
  fold same. rewrite IH. reflexivity.
Qed.

End StableSort.

Section Reports.

Variable monthsBefore : Z -> Z -> Z.

Local Abbreviation collect := (collectResults monthsBefore).
Local Abbreviation report := (generateAttritionReport monthsBefore).

Lemma report_employees (db : Store) (now : Z) (company : string) (months : Z) :
  employees (report db now company months)
  = sortBy (fun a b => gtb (score a) (score b))
      (collect db now months
         (filter (fun e => String.eqb (companyId e) company) db)).
Proof. reflexivity. Qed.

(** X2.  The employees of a report are ordered by score, highest first,
    and they are the collected assessments, each as often as it was
    collected. *)
Theorem report_sorted (db : Store) (now : Z) (company : string) (months : Z) :
  Sorted scoreGe (employees (report db now company months))
  /\ Permutation
       (collect db now months
          (filter (fun e => String.eqb (companyId e) company) db))
       (employees (report db now company months)).
Proof.
  rewrite report_employees. split.
  - apply (sortBy_sorted score).
  - apply sortBy_perm.
Qed.

(** X3.  The sort of the report is stable: the assessments that share a
    score appear in the order in which the employees were scored. *)
Theorem report_ties_keep_order
    (db : Store) (now : Z) (company : string) (months : Z) (s : R) :
  withScore s (employees (report db now company months))
  = withScore s
      (collect db now months
         (filter (fun e => String.eqb (companyId e) company) db)).
Proof.
  rewrite report_employees. unfold withScore.
  apply (sortBy_class score s).
Qed.

Lemma find_by_id (db : Store) (e : Employee) :
  In e db -> exists e', find (fun x => String.eqb (id x) (id e)) db = Some e'.
Proof.
  induction db as [|x db IH]; intro H; [contradiction|].
  cbn [find]. destruct H as [<-|H].
  - rewrite String.eqb_refl. eexists. reflexivity.
  - destruct (String.eqb (id x) (id e)); [eexists; reflexivity|].
    exact (IH H).
Qed.

Lemma calculateAttritionRisk_found (db : Store) (now : Z) (months : Z) (e : Employee) :
  In e db ->
  exists a : Assessment,
    calculateAttritionRisk monthsBefore db now (id e) months = Ok a.
Proof.
  intro H. destruct (find_by_id db e H) as [e' He'].
  unfold calculateAttritionRisk, calculateAttritionRiskWith, findUnique.
  rewrite He'. cbn [attendance].
  destruct (Nat.eqb _ 0); eexists; reflexivity.
Qed.

Lemma collect_length (db : Store) (now months : Z) (found : list Employee)
    (acc : list Assessment) :
  incl found db ->
  List.length
    (fold_left
       (fun results employee =>
          match calculateAttritionRisk monthsBefore db now (id employee) months with
          | Ok risk => results ++ [risk]
          | Throw _ => results
          end)
       found acc)
  = (List.length acc + List.length found)%nat.
Proof.
  revert acc. induction found as [|e found IH]; intros acc Hincl.
  - cbn. lia.
  - cbn [fold_left]. destruct (calculateAttritionRisk_found db now months e) as [a Ha].
    { apply Hincl. left. reflexivity. }
    rewrite Ha, IH.
    + rewrite length_app. cbn [List.length]. lia.
    + intros x Hx. apply Hincl. right. exact Hx.
Qed.

(** X4.  No employee of the company is left out of a report: the list
    has one assessment for each employee found, so its length is
    totalEmployees. *)
Theorem report_complete (db : Store) (now : Z) (company : string) (months : Z) :
  List.length (employees (report db now company months))
  = totalEmployees (report db now company months).
Proof.
  rewrite report_employees. cbn [totalEmployees generateAttritionReport].
  rewrite <- (Permutation_length (sortBy_perm _ _)).
  unfold collectResults. rewrite collect_length; [reflexivity|].
  intros x Hx. apply filter_In in Hx. tauto.
Qed.

(** X5.  Scoring throws 'Employee not found' exactly when the store has
    no employee with the given id, and returns an assessment otherwise. *)
Theorem employee_not_found (db : Store) (now : Z) (key : string) (months : Z) :
  (calculateAttritionRisk monthsBefore db now key months = Throw "Employee not found"
   <-> forall e : Employee, In e db -> id e <> key)
  /\ ((exists e : Employee, In e db /\ id e = key)
      <-> exists a : Assessment,
            calculateAttritionRisk monthsBefore db now key months = Ok a).
Proof.
  unfold calculateAttritionRisk, calculateAttritionRiskWith, findUnique.
  destruct (find (fun e => String.eqb (id e) key) db) as [e|] eqn:Hf.
  - apply find_some in Hf. destruct Hf as [Hin Hid]. apply String.eqb_eq in Hid.
    cbn [attendance]. split; split.
    + destruct (Nat.eqb _ 0); discriminate.
    + intro H. exfalso. exact (H e Hin Hid).
    + intros _. destruct (Nat.eqb _ 0); eexists; reflexivity.
    + intros _. exists e. split; assumption.
  - split; split.
    + intros _ e Hin Hid.
      pose proof (find_none _ _ Hf e Hin) as Hn. cbn in Hn.
      rewrite Hid, String.eqb_refl in Hn. discriminate.
    + reflexivity.
    + intros [e [Hin Hid]].
      pose proof (find_none _ _ Hf e Hin) as Hn. cbn in Hn.
      rewrite Hid, String.eqb_refl in Hn. discriminate.
    + intros [a Ha]. discriminate.
Qed.

End Reports.

(** ** The reported score *)

Lemma round1_range (c : R) : 0 <= c <= 100 -> 0 <= round1 c <= 100.
Proof.
  intros [Hlo Hhi]. unfold round1, Math_round.
  pose proof (Zfloor_bound (c * 10 + 1 / 2)) as [Hb1 Hb2].
  assert (H0 : (0 <= Zfloor (c * 10 + 1 / 2))%Z).
  { apply Zfloor_lub. simpl. lra. }
  assert (H1 : (Zfloor (c * 10 + 1 / 2) <= 1000)%Z).
  { assert (Hlt : (Zfloor (c * 10 + 1 / 2) < 1001)%Z) by (apply lt_IZR; lra).
    lia. }
  apply IZR_le in H0, H1. lra.
Qed.

Lemma round1_near (c : R) : Rabs (round1 c - c) <= 0.05.
Proof.
  unfold round1, Math_round.
  pose proof (Zfloor_bound (c * 10 + 1 / 2)) as [Hb1 Hb2].
  apply Rabs_le. lra.
Qed.

Lemma composite_range (records : list Attendance) :
  0 <= compositeScore records <= 100.
Proof.
  unfold compositeScore.
  pose proof (absenteeism_range records).
  pose proof (leavePattern_range records).
  pose proof (consistency_range records).
  pose proof (recentTrend_range records).
  lra.
Qed.

Section Scores.

Variable monthsBefore : Z -> Z -> Z.

(** The two shapes of an assessment that scoring returns. *)
Lemma calculateAttritionRisk_cases
    (db : Store) (now : Z) (key : string) (months : Z) (a : Assessment) :
  calculateAttritionRisk monthsBefore db now key months = Ok a ->
  exists e : Employee,
    findUnique db key (monthsBefore now months) now = Some e
    /\ ((attendance e = [] /\ a = insufficientData e)
        \/ (attendance e <> []
            /\ score a = round1 (compositeScore (attendance e))
            /\ riskLevel a = determineRiskLevel (compositeScore (attendance e))
            /\ recommendation a
               = generateRecommendation (riskLevel a) (compositeScore (attendance e))
            /\ statistics a = Some (calculateStatistics (attendance e)))).
Proof.
  unfold calculateAttritionRisk, calculateAttritionRiskWith.
  destruct (findUnique db key (monthsBefore now months) now) as [e|];
    [|discriminate].
  destruct (attendance e) as [|r rs] eqn:Hatt; cbn [List.length Nat.eqb];
    intro H; injection H as <-; exists e; (split; [reflexivity|]).
  - left. split; [exact Hatt | reflexivity].
  - right. rewrite Hatt. split; [discriminate|]. repeat split; reflexivity.
Qed.

(** X6.  The score of every assessment that scoring returns lies in
    [0, 100] and has one decimal place; on the scored path it is the
    composite score rounded, within 0.05 of it. *)
Theorem reported_score_range
    (db : Store) (now : Z) (key : string) (months : Z) (a : Assessment) :
  calculateAttritionRisk monthsBefore db now key months = Ok a ->
  0 <= score a <= 100
  /\ (exists n : Z, score a = IZR n / 10)
  /\ (riskLevel a <> "Insufficient Data" ->
      exists e : Employee,
        findUnique db key (monthsBefore now months) now = Some e
        /\ attendance e <> []
        /\ Rabs (score a - compositeScore (attendance e)) <= 0.05).
Proof.
  intro Ha. destruct (calculateAttritionRisk_cases db now key months a Ha)
    as [e [Hf [[Hatt ->]|[Hatt [Hs [Hl _]]]]]].
  - cbn [score riskLevel insufficientData]. split; [lra|].
    split; [exists 0%Z; lra|]. intro H. exfalso. apply H. reflexivity.
  - rewrite Hs. split; [apply round1_range, composite_range|].
    split; [eexists; reflexivity|].
    intros _. exists e. split; [exact Hf|]. split; [exact Hatt|].
    apply round1_near.
Qed.

End Scores.

Lemma reported_score_range_witness :
  exists a : Assessment,
    calculateAttritionRisk UtcHost.monthsBefore
      [Examples.unevenEmployee] 21%Z "u1" 3%Z = Ok a
    /\ 0 <= score a <= 100.
Proof.
  destruct (calculateAttritionRisk_scored UtcHost.monthsBefore
              [Examples.unevenEmployee] 21%Z "u1" 3%Z Examples.unevenEmployee
              uneven_found) as [a [Ha _]]; [discriminate|].
  exists a. split; [exact Ha|].
  exact (proj1 (reported_score_range UtcHost.monthsBefore
                  [Examples.unevenEmployee] 21%Z "u1" 3%Z a Ha)).
Defined.


(** ** The high-risk view *)

Lemma filter_sorted (A : Type) (rel : A -> A -> Prop) (f : A -> bool) (l : list A) :
  Relations_1.Transitive rel -> Sorted rel l -> Sorted rel (filter f l).
Proof.
  intros Ht Hs. apply Sorted_StronglySorted in Hs; [|exact Ht].
  apply StronglySorted_Sorted.
  induction Hs as [|x l Hl IH Hx]; cbn [filter]; [constructor|].
  destruct (f x); [|exact IH].
  constructor; [exact IH|].
  apply Forall_forall. intros y Hy. apply filter_In in Hy.
  rewrite Forall_forall in Hx. apply Hx. tauto.
Qed.

Section HighRisk.

Variable monthsBefore : Z -> Z -> Z.

Lemma collect_Forall (P : Assessment -> Prop) (db : Store) (now months : Z) :
  (forall key a, calculateAttritionRisk monthsBefore db now key months = Ok a -> P a) ->
  forall found : list Employee,
    Forall P (collectResults monthsBefore db now months found).
Proof.
  intros HP found. unfold collectResults.
  assert (G : forall acc, Forall P acc ->
            Forall P
              (fold_left
                 (fun results employee =>
                    match calculateAttritionRisk monthsBefore db now (id employee) months with
                    | Ok risk => results ++ [risk]
                    | Throw _ => results
                    end)
                 found acc)).
  { induction found as [|e found IH]; intros acc Hacc; [exact Hacc|].
    cbn [fold_left]. apply IH.
    destruct (calculateAttritionRisk monthsBefore db now (id e) months) as [a|m] eqn:E;
      [|exact Hacc].
    apply Forall_app. split; [exact Hacc|].
    constructor; [exact (HP _ _ E) | constructor]. }
  apply G. constructor.
Qed.

Lemma round1_at_least_70 (c : R) : 70 <= c -> 70 <= round1 c.
Proof.
  intro H. unfold round1, Math_round.
  assert (Hz : (700 <= Zfloor (c * 10 + 1 / 2))%Z) by (apply Zfloor_lub; lra).
  apply IZR_le in Hz. lra.
Qed.

Lemma high_has_score_70
    (db : Store) (now : Z) (key : string) (months : Z) (a : Assessment) :
  calculateAttritionRisk monthsBefore db now key months = Ok a ->
  riskLevel a = "High" -> 70 <= score a.
Proof.
  intros Ha Hhigh.
  destruct (calculateAttritionRisk_cases monthsBefore db now key months a Ha)
    as [e [_ [[_ ->]|[_ [Hs [Hl _]]]]]]; [discriminate Hhigh|].
  rewrite Hs. apply round1_at_least_70.
  rewrite Hhigh in Hl. unfold determineRiskLevel in Hl.
  destruct (geb (compositeScore (attendance e)) 70) eqn:E;
    [apply geb_true in E; exact E|].
  destruct (geb (compositeScore (attendance e)) 40); discriminate.
Qed.

(** X7.  The high-risk view at the default threshold 70 holds every
    assessment of the report whose level is High, so it is at least as
    long as the summary's high count; it keeps the order of the report.
    It can be longer: the view filters on the rounded score, the level
    comes from the unrounded one, and the uneven example is listed
    in the view while the summary counts no High. *)
Theorem highRisk_view
    (db : Store) (now : Z) (company : string) (months : Z) :
  let report := generateAttritionReport monthsBefore db now company months in
  (forall a : Assessment,
      In a (employees report) -> riskLevel a = "High" ->
      In a (AttritionRoutes.highRiskEmployees report 70))
  /\ (high (summary report)
      <= List.length (AttritionRoutes.highRiskEmployees report 70))%nat
  /\ (forall threshold : Z,
        Sorted scoreGe (AttritionRoutes.highRiskEmployees report threshold)).
Proof.
  intro report.
  assert (Hall : Forall (fun a => riskLevel a = "High" -> 70 <= score a)
                   (employees report)).
  { unfold report. rewrite report_employees. apply sortBy_Forall.
    apply collect_Forall. intros key a. apply high_has_score_70. }
  rewrite Forall_forall in Hall.
  assert (Hin : forall a, In a (employees report) -> riskLevel a = "High" ->
                          In a (AttritionRoutes.highRiskEmployees report 70)).
  { intros a Ha Hh. unfold AttritionRoutes.highRiskEmployees.
    apply filter_In. split; [exact Ha|].
    apply geb_intro_true. exact (Hall a Ha Hh). }
  split; [exact Hin|]. split.
  - cbn [summary high report generateAttritionReport].
    fold report.
    unfold AttritionRoutes.highRiskEmployees.
    assert (G : forall l : list Assessment,
               (forall a, In a l -> riskLevel a = "High" -> 70 <= score a) ->
               (List.length (filter (hasLevel "High") l)
                <= List.length (filter (fun e => geb (score e) 70) l))%nat).
    { induction l as [|x l IH]; intro H; [cbn; lia|].
      cbn [filter]. assert (IH' := IH (fun a Ha => H a (or_intror Ha))).
      unfold hasLevel at 1. destruct (String.eqb (riskLevel x) "High") eqn:E.
      - apply String.eqb_eq in E.
        rewrite (geb_intro_true (score x) 70) by (apply H; [left; reflexivity | exact E]).
        cbn [List.length]. lia.
      - destruct (geb (score x) 70); cbn [List.length]; lia. }
    apply G. exact Hall.
  - intro threshold. unfold AttritionRoutes.highRiskEmployees.
    pose proof (proj1 (report_sorted monthsBefore db now company months)) as Hs.
    fold report in Hs.
    apply filter_sorted; [|exact Hs].
    intros x y z Hxy Hyz. unfold scoreGe in *. lra.
Qed.

End HighRisk.

(** The uneven example is listed in the high-risk view although its
    level is Moderate. *)
Lemma uneven_in_highRisk_view :
  let report := generateAttritionReport UtcHost.monthsBefore
                  [Examples.unevenEmployee] 21%Z "acme" 3%Z in
  high (summary report) = 0%nat
  /\ List.length (AttritionRoutes.highRiskEmployees report 70) = 1%nat.
Proof.
  cbv zeta.
  destruct (calculateAttritionRisk_scored UtcHost.monthsBefore
              [Examples.unevenEmployee] 21%Z "u1" 3%Z Examples.unevenEmployee
              uneven_found) as [a [Ha [Hlevel Hscore]]]; [discriminate|].
  cbn [attendance Examples.unevenEmployee] in Hlevel, Hscore.
  rewrite (level_below_70 _ uneven_composite) in Hlevel.
  rewrite (round1_below_70 _ uneven_composite) in Hscore.
  unfold AttritionRoutes.highRiskEmployees, generateAttritionReport, collectResults.
  cbn [filter Examples.unevenEmployee companyId String.eqb Ascii.eqb Bool.eqb
       fold_left id employees summary high].
  rewrite Ha. cbn [app sortBy insertBy filter].
  unfold hasLevel. rewrite Hlevel, Hscore.
  rewrite geb_intro_true by lra. split; reflexivity.
Qed.

(** ** Statistics and the leave pattern *)

Lemma countStatus_cons (s : string) (r : Attendance) (records : list Attendance) :
  countStatus s (r :: records)
  = ((if String.eqb (status r) s then 1 else 0) + countStatus s records)%nat.
Proof.
  unfold countStatus, hasStatus. cbn [filter].
  destruct (String.eqb (status r) s); reflexivity.
Qed.

Lemma status_partition (records : list Attendance) :
  (countStatus "Present" records + countStatus "Absent" records
   + countStatus "Planned Leave" records + countStatus "Unplanned Leave" records
   + List.length (filter (fun r => negb (knownStatus r)) records)
   = List.length records)%nat.
Proof.
  induction records as [|r records IH]; [reflexivity|].
  rewrite !countStatus_cons. cbn [filter List.length].
  unfold knownStatus at 1, hasStatus.
  destruct (String.eqb (status r) "Present") eqn:E1;
    [apply String.eqb_eq in E1; rewrite E1; cbn; lia|].
  destruct (String.eqb (status r) "Absent") eqn:E2;
    [apply String.eqb_eq in E2; rewrite E2; cbn; lia|].
  destruct (String.eqb (status r) "Planned Leave") eqn:E3;
    [apply String.eqb_eq in E3; rewrite E3; cbn; lia|].
  destruct (String.eqb (status r) "Unplanned Leave") eqn:E4; cbn; lia.
Qed.

(** X8.  The day counts of the statistics block split the records:
    present, absent, planned-leave and unplanned-leave days add up to
    totalDays minus the records whose status is none of the four, hence
    to totalDays when every status is one of the four. *)
Theorem statistics_partition (records : list Attendance) :
  let s := calculateStatistics records in
  (presentDays s + absentDays s + plannedLeaveDays s + unplannedLeaveDays s
   + List.length (filter (fun r => negb (knownStatus r)) records)
   = totalDays s)%nat
  /\ (forallb knownStatus records = true ->
      (presentDays s + absentDays s + plannedLeaveDays s + unplannedLeaveDays s
       = totalDays s)%nat).
Proof.
  cbn zeta. cbn [calculateStatistics presentDays absentDays plannedLeaveDays
                 unplannedLeaveDays totalDays].
  pose proof (status_partition records) as H. split; [exact H|].
  intro Hall.
  assert (Hnone : filter (fun r => negb (knownStatus r)) records = []).
  { clear H. induction records as [|r records IH]; [reflexivity|].
    cbn [forallb] in Hall. apply andb_true_iff in Hall. destruct Hall as [Hr Hrs].
    cbn [filter]. rewrite Hr. cbn [negb]. exact (IH Hrs). }
  rewrite Hnone in H. cbn [List.length] in H. lia.
Qed.

Lemma statistics_partition_witness :
  let s := calculateStatistics Examples.unevenRecords in
  (presentDays s + absentDays s + plannedLeaveDays s + unplannedLeaveDays s
   = totalDays s)%nat.
Proof.
  apply (proj2 (statistics_partition Examples.unevenRecords)). reflexivity.
Defined.

(** The rates are printed from the doubles: 23 absences in 160 days make
    the double 14.374999999999998, printed as 14.37%. *)
Lemma rate_of_23_in_160 :
  absenteeismRate
    (calculateStatistics
       (repeat (mkAttendance 0 "Absent") 23 ++ repeat (mkAttendance 0 "Present") 137))
  = 1437%Z.
Proof. vm_compute. reflexivity. Qed.

Lemma leave_counts (records : list Attendance) :
  (countStatus "Unplanned Leave" records <= List.length (filter isLeave records))%nat.
Proof.
  unfold countStatus. induction records as [|r records IH]; [cbn; lia|].
  cbn [filter]. unfold isLeave at 1.
  destruct (hasStatus "Unplanned Leave" r); [rewrite orb_true_r|];
    [cbn [List.length]; lia|].
  destruct (hasStatus "Planned Leave" r); cbn [orb List.length]; lia.
Qed.

(** X9.  The leave pattern score is 0 exactly when the records hold no
    unplanned leave (whether or not they hold planned leave), and it is
    90 when every leave is unplanned. *)
Theorem leavePattern_zero (records : list Attendance) :
  (calculateLeavePatternScore records = 0
   <-> countStatus "Unplanned Leave" records = 0%nat)
  /\ (countStatus "Unplanned Leave" records = List.length (filter isLeave records) ->
      countStatus "Unplanned Leave" records <> 0%nat ->
      calculateLeavePatternScore records = 90).
Proof.
  pose proof (leave_counts records) as Hle.
  unfold calculateLeavePatternScore.
  set (u := countStatus "Unplanned Leave" records) in *.
  set (t := List.length (filter isLeave records)) in *.
  destruct (Nat.eqb t 0) eqn:Et.
  - apply Nat.eqb_eq in Et. split.
    + split; [intros _; lia | reflexivity].
    + intros H1 H2. lia.
  - apply Nat.eqb_neq in Et.
    assert (Ht : 0 < INR t) by (apply lt_0_INR; lia).
    split.
    + split.
      * intro H. destruct u as [|u']; [reflexivity|]. exfalso.
        assert (Hu : 0 < INR (S u') / INR t).
        { apply Rdiv_lt_0_compat; [apply lt_0_INR; lia | exact Ht]. }
        revert H. repeat split_geb; lra.
      * intro Hu. rewrite Hu. cbn [INR].
        replace (0 / INR t) with 0 by (unfold Rdiv; lra).
        repeat split_geb; lra.
    + intros H1 _. rewrite H1.
      replace (INR t / INR t) with 1 by (field; lra).
      rewrite geb_intro_true by lra. reflexivity.
Qed.

Lemma leavePattern_zero_witness :
  calculateLeavePatternScore Examples.allPresent = 0.
Proof.
  apply (proj1 (leavePattern_zero Examples.allPresent)). reflexivity.
Defined.

(** ** The weeks of the consistency score *)

Lemma weeksOf_fuel (f1 f2 : nat) (records : list Attendance) :
  (List.length records <= f1)%nat -> (List.length records <= f2)%nat ->
  weeksOf f1 records = weeksOf f2 records.
Proof.
  revert f2 records. induction f1 as [|f1 IH]; intros f2 records H1 H2.
  - destruct records; [|cbn in H1; lia]. destruct f2; reflexivity.
  - destruct records as [|r records]; [destruct f2; reflexivity|].
    destruct f2 as [|f2]; [cbn in H2; lia|].
    cbn [weeksOf]. f_equal. apply IH;
      rewrite length_skipn; cbn [List.length] in *; lia.
Qed.

Lemma weeks_cons (r : Attendance) (records : list Attendance) :
  weeks (r :: records)
  = firstn 5 (r :: records) :: weeks (skipn 5 (r :: records)).
Proof.
  unfold weeks. cbn [List.length weeksOf]. f_equal.
  apply weeksOf_fuel; rewrite ?length_skipn; cbn [List.length]; lia.
Qed.

Lemma weeks_short (w : list Attendance) :
  w <> [] -> (List.length w <= 5)%nat -> weeks w = [w].
Proof.
  intros Hne Hle. destruct w as [|r w]; [contradiction|].
  rewrite weeks_cons, firstn_all2 by exact Hle.
  rewrite skipn_all2 by exact Hle. reflexivity.
Qed.

Lemma weeks_full (w rest : list Attendance) :
  List.length w = 5%nat -> weeks (w ++ rest) = w :: weeks rest.
Proof.
  intro H. destruct w as [|r w]; [discriminate|].
  cbn [app]. rewrite weeks_cons. change (r :: w ++ rest) with ((r :: w) ++ rest).
  rewrite firstn_app, skipn_app, H, Nat.sub_diag.
  rewrite firstn_all2, skipn_all2 by lia.
  cbn [firstn skipn app]. rewrite app_nil_r. reflexivity.
Qed.

Lemma weeklyLoop_weeks (records : list Attendance) :
  forall (index len : nat) (currentWeek : list Attendance) (weeklyRates : list R),
    len = (index + List.length records)%nat ->
    (List.length currentWeek < 5)%nat ->
    (records = [] -> currentWeek = []) ->
    weeklyLoop records index len currentWeek weeklyRates
    = weeklyRates ++ map absentRateOf (weeks (currentWeek ++ records)).
Proof.
  induction records as [|r rest IH]; intros index len cw acc Hlen Hcw Hnil.
  - rewrite (Hnil eq_refl). cbn. rewrite app_nil_r. reflexivity.
  - cbn [weeklyLoop].
    assert (Hsplit : cw ++ r :: rest = (cw ++ [r]) ++ rest)
      by (rewrite <- app_assoc; reflexivity).
    destruct (Nat.eqb (List.length (cw ++ [r])) 5) eqn:E5.
    + apply Nat.eqb_eq in E5. cbn [orb].
      rewrite (IH (S index) len [] _); [|cbn [List.length] in Hlen; lia | cbn; lia | reflexivity].
      rewrite Hsplit, (weeks_full _ _ E5). cbn [app map].
      rewrite <- app_assoc. reflexivity.
    + apply Nat.eqb_neq in E5. cbn [orb].
      assert (Hlt : (List.length (cw ++ [r]) < 5)%nat).
      { rewrite length_app in *. cbn [List.length] in *. lia. }
      destruct (Nat.eqb index (len - 1)) eqn:El.
      * apply Nat.eqb_eq in El.
        assert (Hrest : rest = []).
        { destruct rest; [reflexivity|]. cbn [List.length] in Hlen. lia. }
        subst rest. cbn [weeklyLoop]. rewrite Hsplit, app_nil_r.
        rewrite weeks_short; [reflexivity | | lia].
        intro H. apply app_eq_nil in H. destruct H as [_ H]. discriminate.
      * apply Nat.eqb_neq in El.
        rewrite (IH (S index) len (cw ++ [r]) acc);
          [rewrite Hsplit; reflexivity | cbn [List.length] in Hlen; lia | exact Hlt |].
        intros ->. cbn [List.length] in Hlen. lia.
Qed.

Lemma weeks_concat (records : list Attendance) :
  List.concat (weeks records) = records.
Proof.
  remember (List.length records) as n eqn:Hn.
  revert records Hn. induction n as [n IH] using lt_wf_ind; intros records Hn.
  destruct records as [|r records]; [reflexivity|].
  rewrite weeks_cons. cbn [List.concat].
  rewrite (IH (List.length (skipn 5 (r :: records)))); [apply firstn_skipn | | reflexivity].
  rewrite length_skipn. subst n. cbn [List.length]. lia.
Qed.

Lemma weeks_length (records : list Attendance) :
  List.length (weeks records) = ((List.length records + 4) / 5)%nat.
Proof.
  remember (List.length records) as n eqn:Hn.
  revert records Hn. induction n as [n IH] using lt_wf_ind; intros records Hn.
  destruct records as [|r records]; [subst n; reflexivity|].
  rewrite weeks_cons. cbn [List.length].
  rewrite (IH (List.length (skipn 5 (r :: records))) ltac:(rewrite length_skipn; subst n; cbn [List.length]; lia) _ eq_refl).
  rewrite length_skipn. subst n. cbn [List.length].
  destruct (le_lt_dec 5 (S (List.length records))) as [Hge|Hlt].
  - replace (S (List.length records) + 4)%nat
      with (S (List.length records) - 5 + 4 + 1 * 5)%nat by lia.
    rewrite Nat.div_add by lia. lia.
  - replace (S (List.length records) - 5)%nat with 0%nat by lia.
    assert (H : ((S (List.length records) + 4) / 5 = 1)%nat).
    { symmetry. apply Nat.div_unique with (r := (List.length records)%nat); lia. }
    rewrite H. reflexivity.
Qed.

Lemma weeks_sizes (records : list Attendance) :
  Forall (fun w => (1 <= List.length w <= 5)%nat) (weeks records).
Proof.
  remember (List.length records) as n eqn:Hn.
  revert records Hn. induction n as [n IH] using lt_wf_ind; intros records Hn.
  destruct records as [|r records]; [constructor|].
  rewrite weeks_cons. constructor.
  - rewrite length_firstn. cbn [List.length]. lia.
  - apply (IH (List.length (skipn 5 (r :: records)))); [|reflexivity].
    rewrite length_skipn. subst n. cbn [List.length]. lia.
Qed.

(** X10.  The consistency score works on the records cut into
    consecutive weeks of five, the last one shorter when the length is
    no multiple of five: the weekly rates are the absent rates of these
    weeks, there are ceil(n / 5) of them, and put together again the
    weeks give the records back. *)
Theorem weeklyRates_are_week_rates (records : list Attendance) :
  weeklyRatesOf records = map absentRateOf (weeks records)
  /\ List.length (weeklyRatesOf records) = ((List.length records + 4) / 5)%nat
  /\ List.concat (weeks records) = records
  /\ Forall (fun w => (1 <= List.length w <= 5)%nat) (weeks records).
Proof.
  assert (H : weeklyRatesOf records = map absentRateOf (weeks records)).
  { unfold weeklyRatesOf.
    rewrite (weeklyLoop_weeks records 0 (List.length records) [] []);
      [reflexivity | reflexivity | cbn; lia | reflexivity]. }
  split; [exact H|]. split; [rewrite H, length_map; apply weeks_length|].
  split; [apply weeks_concat | apply weeks_sizes].
Qed.

(** ** Records without absences, and short windows *)

Lemma countStatus_sublist (s : string) (records w : list Attendance) :
  incl w records -> countStatus s records = 0%nat -> countStatus s w = 0%nat.
Proof.
  unfold countStatus. intros Hincl H.
  destruct (filter (hasStatus s) w) as [|x xs] eqn:E; [reflexivity|].
  assert (Hx : In x (filter (hasStatus s) w)) by (rewrite E; left; reflexivity).
  apply filter_In in Hx. destruct Hx as [Hw Hs].
  assert (Hr : In x (filter (hasStatus s) records)).
  { apply filter_In. split; [apply Hincl; exact Hw | exact Hs]. }
  destruct (filter (hasStatus s) records); [contradiction | discriminate].
Qed.

Lemma in_skipn (A : Type) (n : nat) (l : list A) (x : A) :
  In x (skipn n l) -> In x l.
Proof.
  intro H. rewrite <- (firstn_skipn n l). apply in_or_app. right. exact H.
Qed.

Lemma in_firstn (A : Type) (n : nat) (l : list A) (x : A) :
  In x (firstn n l) -> In x l.
Proof.
  intro H. rewrite <- (firstn_skipn n l). apply in_or_app. left. exact H.
Qed.

Lemma weeks_incl (records w : list Attendance) :
  In w (weeks records) -> incl w records.
Proof.
  intros Hw x Hx. rewrite <- (weeks_concat records).
  apply in_concat. exists w. split; assumption.
Qed.

Lemma fold_sum_zero (l : list R) (f : R -> R) :
  Forall (fun x => f x = 0) l ->
  fold_left (fun sum x => sum + f x) l 0 = 0.
Proof.
  intro H. assert (G : forall acc, fold_left (fun sum x => sum + f x) l acc = acc).
  { induction H as [|x l Hx _ IH]; intro acc; [reflexivity|].
    cbn [fold_left]. rewrite IH, Hx. lra. }
  apply G.
Qed.

Lemma no_absence_rates (records : list Attendance) :
  countStatus "Absent" records = 0%nat ->
  Forall (fun rate => rate = 0) (weeklyRatesOf records).
Proof.
  intro H. rewrite (proj1 (weeklyRates_are_week_rates records)).
  apply Forall_forall. intros rate Hr. apply in_map_iff in Hr.
  destruct Hr as [w [<- Hw]]. unfold absentRateOf.
  rewrite (countStatus_sublist "Absent" records w (weeks_incl _ _ Hw) H).
  cbn [INR]. unfold Rdiv. lra.
Qed.

Lemma consistency_no_absence (records : list Attendance) :
  countStatus "Absent" records = 0%nat -> calculateConsistencyScore records = 0.
Proof.
  intro H. unfold calculateConsistencyScore.
  destruct (Nat.ltb _ 2); [reflexivity|].
  pose proof (no_absence_rates records H) as Hz.
  assert (Hmean : fold_left (fun a b => a + b) (weeklyRatesOf records) 0 = 0).
  { apply (fold_sum_zero _ (fun x => x)). exact Hz. }
  rewrite Hmean.
  replace (0 / INR (List.length (weeklyRatesOf records))) with 0
    by (unfold Rdiv; lra).
  rewrite (fold_sum_zero _ (fun rate => (rate - 0) ^ 2)).
  - replace (0 / INR (List.length (weeklyRatesOf records))) with 0
      by (unfold Rdiv; lra).
    rewrite sqrt_0, Rmult_0_l. apply Rmin_left. lra.
  - apply Forall_forall. intros x Hx. rewrite Forall_forall in Hz.
    rewrite (Hz x Hx). lra.
Qed.

Lemma recentTrend_no_absence (records : list Attendance) :
  countStatus "Absent" records = 0%nat -> calculateRecentTrendScore records = 0.
Proof.
  intro H. rewrite recentTrend_refines. unfold TrendSpec.recentTrendScore.
  destruct (Nat.ltb (List.length records) 20) eqn:E; [reflexivity|].
  apply Nat.ltb_ge in E.
  assert (Hall : TrendCases.inAllCases TrendCases.noAbsenceScoresZero = true)
    by (vm_compute; reflexivity).
  pose proof (inAllCases_spec _ Hall records E) as Hc.
  unfold TrendCases.noAbsenceScoresZero in Hc.
  rewrite <- (proj1 (trendOf_case records E)) in Hc.
  rewrite <- !countStatus_absences in Hc.
  rewrite (countStatus_sublist "Absent" records (TrendSpec.lastRecords 15 records)),
          (countStatus_sublist "Absent" records (TrendSpec.precedingRecords records))
    in Hc; [| | exact H | | exact H].
  - cbn [Nat.eqb andb implb] in Hc. apply Qeq_bool_Req in Hc.
    unfold toReal. rewrite Hc. apply Q2R_zero.
  - unfold TrendSpec.precedingRecords, TrendSpec.lastRecords, TrendSpec.withoutLast.
    intros x Hx. apply in_skipn in Hx. apply in_firstn in Hx. exact Hx.
  - unfold TrendSpec.lastRecords. intros x Hx. apply in_skipn in Hx. exact Hx.
Qed.

(** X11.  A non-empty record sequence without any absence and without
    unplanned leave scores 0 on all four factors, so its composite score
    is 0, its reported score 0 and its level Low: the all-present
    employee of any length is Low with score 0. *)
Theorem calm_records_score_zero (records : list Attendance) :
  records <> [] ->
  countStatus "Absent" records = 0%nat ->
  countStatus "Unplanned Leave" records = 0%nat ->
  calculateAbsenteeismScore records = 0
  /\ calculateLeavePatternScore records = 0
  /\ calculateConsistencyScore records = 0
  /\ calculateRecentTrendScore records = 0
  /\ compositeScore records = 0
  /\ round1 (compositeScore records) = 0
  /\ determineRiskLevel (compositeScore records) = "Low".
Proof.
  intros _ Ha Hu.
  assert (HA : calculateAbsenteeismScore records = 0).
  { unfold calculateAbsenteeismScore. rewrite Ha. cbn [INR].
    replace (0 / INR (List.length records)) with 0 by (unfold Rdiv; lra).
    repeat split_geb; lra. }
  assert (HL : calculateLeavePatternScore records = 0)
    by (apply leavePattern_zero; exact Hu).
  assert (HC := consistency_no_absence records Ha).
  assert (HT := recentTrend_no_absence records Ha).
  assert (Hc : compositeScore records = 0).
  { unfold compositeScore. rewrite HA, HL, HC, HT. lra. }
  repeat split; try assumption.
  - rewrite Hc. unfold round1, Math_round.
    rewrite (Zfloor_eq 0); [lra | split; simpl; lra].
  - rewrite Hc. unfold determineRiskLevel.
    rewrite !geb_intro_false by lra. reflexivity.
Qed.

Lemma calm_records_score_zero_witness :
  compositeScore Examples.allPresent = 0
  /\ determineRiskLevel (compositeScore Examples.allPresent) = "Low".
Proof.
  destruct (calm_records_score_zero Examples.allPresent) as [_ [_ [_ [_ [H [_ H']]]]]];
    [discriminate | reflexivity | reflexivity |].
  split; assumption.
Defined.

Lemma leavePattern_upper (records : list Attendance) :
  calculateLeavePatternScore records <= 90.
Proof.
  unfold calculateLeavePatternScore.
  destruct (Nat.eqb _ 0); [lra|]. repeat split_geb; lra.
Qed.



(** ** The piecewise scores grow with their rates *)

Lemma Qle_bool_false_Rlt (q1 q2 : Q) : Qle_bool q1 q2 = false -> Q2R q2 < Q2R q1.
Proof.
  intro H. apply Qlt_Rlt, Qnot_le_lt. intro Hle.
  apply Qle_bool_iff in Hle. rewrite Hle in H. discriminate.
Qed.

(** Splits on the outcome of a comparison of two rationals. *)
Ltac split_Qle :=
  match goal with
  | |- context [Qle_bool ?a ?b] =>
      let E := fresh "E" in
      destruct (Qle_bool a b) eqn:E;
      [apply Qle_bool_Rle in E | apply Qle_bool_false_Rlt in E]
  end.

Lemma band_edges :
  0 < Q2R (value 0.05%float)
  /\ Q2R (value 0.05%float) < Q2R (value 0.10%float)
  /\ Q2R (value 0.10%float) < Q2R (value 0.15%float).
Proof.
  rewrite <- Q2R_zero. repeat split; apply Qle_bool_false_Rlt; vm_compute; reflexivity.
Qed.

Lemma bandOf_monotone (q1 q2 : Q) :
  Q2R q1 <= Q2R q2 -> (TrendCases.bandOf q1 <= TrendCases.bandOf q2)%nat.
Proof.
  intro H. destruct band_edges as [H05 [H10 H15]].
  unfold TrendCases.bandOf. rewrite <- Q2R_zero in *.
  repeat split_Qle; try lia; exfalso; lra.
Qed.

Lemma bandScore_values :
  Q2R (TrendCases.bandScore 0) = 0 /\ Q2R (TrendCases.bandScore 2) = 50
  /\ Q2R (TrendCases.bandScore 3) = 75 /\ Q2R (TrendCases.bandScore 4) = 100.
Proof. unfold Q2R. simpl. repeat split; lra. Qed.

Lemma bandOf_bound (q : Q) : (TrendCases.bandOf q <= 4)%nat.
Proof. unfold TrendCases.bandOf. repeat split_Qle; lia. Qed.

(** The score of the trend of a record sequence, by its band. *)
Lemma trend_score_by_band (records : list Attendance) :
  (20 <= List.length records)%nat ->
  let t := TrendSpec.trendOf records in
  let band := TrendCases.bandOf (value t) in
  let score := toReal (TrendSpec.trendBand t) in
  (band = 1%nat -> 0 <= score <= 50)
  /\ (band <> 1%nat -> score = Q2R (TrendCases.bandScore band)).
Proof.
  intros Hn t band score.
  assert (Hall : TrendCases.inAllCases TrendCases.scoreByBand = true)
    by (vm_compute; reflexivity).
  pose proof (inAllCases_spec _ Hall records Hn) as H.
  unfold TrendCases.scoreByBand in H.
  rewrite <- (proj1 (trendOf_case records Hn)) in H.
  fold t in H. fold band in H. split.
  - intro Hb. rewrite Hb in H. cbn [Nat.eqb] in H.
    apply andb_true_iff in H. destruct H as [H0 H50].
    apply Qle_bool_Rle in H0, H50. rewrite Q2R_zero in H0.
    replace (Q2R 50) with 50 in H50 by (unfold Q2R; simpl; lra).
    unfold score, toReal. lra.
  - intro Hb. apply Nat.eqb_neq in Hb. rewrite Hb in H.
    apply Qeq_bool_Req in H. exact H.
Qed.

Lemma filter_In_intro (A : Type) (f : A -> bool) (l : list A) (x : A) :
  In x l -> f x = true -> In x (filter f l).
Proof. intros Hin Hf. apply filter_In. split; assumption. Qed.

Lemma forallb_pairs (A : Type) (f : A -> A -> bool) (l : list A) :
  forallb (fun x => forallb (f x) l) l = true ->
  forall x y : A, In x l -> In y l -> f x y = true.
Proof.
  intros H x y Hx Hy. rewrite forallb_forall in H. specialize (H x Hx).
  rewrite forallb_forall in H. exact (H y Hy).
Qed.

Lemma linear_case (records : list Attendance) :
  (20 <= List.length records)%nat ->
  TrendCases.bandOf (value (TrendSpec.trendOf records)) = 1%nat ->
  exists c, In c TrendCases.linearCases
            /\ TrendSpec.trendOf records = TrendCases.trendOfCase c.
Proof.
  intros Hn Hb. destruct (trendOf_case records Hn) as [Ht Hin].
  exists (TrendSpec.absences (TrendSpec.lastRecords 15 records),
          (List.length (TrendSpec.precedingRecords records),
           TrendSpec.absences (TrendSpec.precedingRecords records))).
  split; [|exact Ht].
  refine (filter_In_intro _ _ TrendCases.cases _ Hin _).
  cbn [fst snd]. rewrite <- Ht, Hb. reflexivity.
Qed.

Lemma linear_cases_monotone (c1 c2 : nat * (nat * nat)) :
  In c1 TrendCases.linearCases -> In c2 TrendCases.linearCases ->
  toReal (TrendCases.trendOfCase c1) <= toReal (TrendCases.trendOfCase c2) ->
  toReal (TrendSpec.trendBand (TrendCases.trendOfCase c1))
  <= toReal (TrendSpec.trendBand (TrendCases.trendOfCase c2)).
Proof.
  intros H1 H2 H.
  assert (Hm : forallb (fun c => forallb (TrendCases.growsWith c)
                                         TrendCases.linearCases)
                       TrendCases.linearCases = true)
    by (vm_compute; reflexivity).
  pose proof (forallb_pairs _ TrendCases.growsWith TrendCases.linearCases
                Hm c1 c2 H1 H2) as Hp.
  unfold TrendCases.growsWith in Hp. unfold toReal in H.
  apply Rle_Qle_bool in H. rewrite H in Hp.
  apply Qle_bool_Rle. exact Hp.
Qed.

Lemma trend_score_monotone (records1 records2 : list Attendance) :
  (20 <= List.length records1)%nat -> (20 <= List.length records2)%nat ->
  toReal (TrendSpec.trendOf records1) <= toReal (TrendSpec.trendOf records2) ->
  calculateRecentTrendScore records1 <= calculateRecentTrendScore records2.
Proof.
  intros H1 H2 H. rewrite !recentTrend_refines. unfold TrendSpec.recentTrendScore.
  pose proof H1 as E1. pose proof H2 as E2.
  apply Nat.ltb_ge in E1, E2. rewrite E1, E2.
  destruct (trend_score_by_band records1 H1) as [L1 S1].
  destruct (trend_score_by_band records2 H2) as [L2 S2].
  pose proof (bandOf_monotone _ _ H) as Hb.
  pose proof (bandOf_bound (value (TrendSpec.trendOf records2))) as Hb4.
  destruct bandScore_values as [B0 [B2 [B3 B4]]].
  cbv zeta in *.
  destruct (Nat.eq_dec (TrendCases.bandOf (value (TrendSpec.trendOf records1))) 1)
    as [Hone1|Hne1];
  destruct (Nat.eq_dec (TrendCases.bandOf (value (TrendSpec.trendOf records2))) 1)
    as [Hone2|Hne2].
  - destruct (linear_case records1 H1 Hone1) as [c1 [Hc1 Ht1]].
    destruct (linear_case records2 H2 Hone2) as [c2 [Hc2 Ht2]].
    rewrite Ht1, Ht2 in H |- *.
    exact (linear_cases_monotone c1 c2 Hc1 Hc2 H).
  - specialize (L1 Hone1). specialize (S2 Hne2). rewrite S2.
    rewrite Hone1 in Hb.
    destruct (TrendCases.bandOf (value (TrendSpec.trendOf records2)))
      as [|[|[|[|[|b]]]]]; try lia; try congruence; lra.
  - specialize (S1 Hne1). specialize (L2 Hone2). rewrite S1.
    rewrite Hone2 in Hb.
    destruct (TrendCases.bandOf (value (TrendSpec.trendOf records1)))
      as [|[|b]]; try lia; try congruence. lra.
  - specialize (S1 Hne1). specialize (S2 Hne2). rewrite S1, S2.
    destruct (TrendCases.bandOf (value (TrendSpec.trendOf records1)))
      as [|[|[|[|[|b1]]]]];
    destruct (TrendCases.bandOf (value (TrendSpec.trendOf records2)))
      as [|[|[|[|[|b2]]]]]; try lia; try congruence; lra.
Qed.



End EngineMore.

(** * Further facts about the upload validator *)

Module ParserMore.

Import JsArray JsString FileParser ParserNotions ParserOrder ParserFacts.

(** ** Rows and entries *)

Section Accounting.

Variable parseDate : option string -> JsDate.
Variable isWeekend : Z -> bool.
Variable newDate : string -> JsDate.

Local Abbreviation verdict := (ParserNotions.verdict parseDate isWeekend newDate).
Local Abbreviation reportFrom := (ParserNotions.reportFrom parseDate isWeekend newDate).
Local Abbreviation keptFrom := (ParserNotions.keptFrom parseDate isWeekend newDate).
Local Abbreviation validate := (validateAndNormalize parseDate isWeekend newDate).
Local Abbreviation perRow := (forEachRecord parseDate isWeekend newDate).

(** Every row is either reported or kept. *)
Lemma report_or_kept (records earlier : list Row) :
  (List.length (reportFrom earlier records) + List.length (keptFrom earlier records)
   = List.length records)%nat.
Proof.
  revert earlier. induction records as [|r rest IH]; intro earlier; [reflexivity|].
  cbn [ParserNotions.reportFrom ParserNotions.keptFrom].
  rewrite !length_app. specialize (IH (earlier ++ [r])).
  destruct (verdict earlier r); cbn [List.length]; lia.
Qed.

Lemma report_rowNumbers (records earlier : list Row) :
  List.length (rowNumbers (reportFrom earlier records))
  = List.length (reportFrom earlier records)
  /\ Forall (fun n => (List.length earlier + 2 <= n
                       < List.length earlier + 2 + List.length records)%nat)
       (rowNumbers (reportFrom earlier records))
  /\ StronglySorted lt (rowNumbers (reportFrom earlier records)).
Proof.
  revert earlier. induction records as [|r rest IH]; intro earlier.
  - cbn. repeat split; constructor.
  - cbn [ParserNotions.reportFrom]. unfold rowNumbers in *.
    rewrite flat_map_app, !length_app.
    destruct (IH (earlier ++ [r])) as [Hlen [Hrange Hsorted]].
    rewrite length_app in Hrange. cbn [List.length] in Hrange.
    assert (Hrange' : Forall (fun n => (List.length earlier + 2 < n
                         < List.length earlier + 2 + S (List.length rest))%nat)
              (flat_map (fun e => match rowOf e with Some n => [n] | None => [] end)
                 (reportFrom (earlier ++ [r]) rest))).
    { eapply Forall_impl; [|exact Hrange]. cbn beta. intros n Hn. lia. }
    destruct (verdict earlier r) as [|m ms]; cbn [flat_map rowOf app List.length].
    + split; [exact Hlen|]. split; [|exact Hsorted].
      eapply Forall_impl; [|exact Hrange']. cbn beta. intros n Hn. lia.
    + split; [rewrite Hlen; reflexivity|]. split.
      * constructor; [lia|].
        eapply Forall_impl; [|exact Hrange']. cbn beta. intros n Hn. lia.
      * constructor; [exact Hsorted|].
        eapply Forall_impl; [|exact Hrange']. cbn beta. intros n Hn. lia.
Qed.

Lemma volumeErrors_rowNumbers (g : Groups) : rowNumbers (volumeErrors g) = [].
Proof.
  unfold rowNumbers, volumeErrors.
  induction (objectEntries g) as [|[k rs] l IH]; [reflexivity|].
  cbn [flat_map]. rewrite flat_map_app, IH, app_nil_r.
  unfold volumeError. destruct (outOfRange (List.length rs)); reflexivity.
Qed.

(** The result of a run that returns, in terms of the rows. *)
Lemma validate_result (records : list Row) (r : ParseResult) :
  validate records = Ok r ->
  exists g : Groups,
    groupsOf (validRecords r) g
    /\ validRecords r = map (normalize parseDate newDate) (keptFrom [] records)
    /\ errors r = reportFrom [] records ++ volumeErrors g
    /\ invalidRecords r = List.length (errors r)
    /\ valid r = Nat.eqb (List.length (errors r)) 0.
Proof.
  intro H. unfold validateAndNormalize in H.
  destruct records as [|first rest]; [discriminate|].
  destruct (Nat.ltb 0 (List.length (missingColumnsOf (keys first))));
    [discriminate|].
  destruct (forEachRecord_spec parseDate isWeekend newDate (first :: rest) []
              initialState) as [He Hv]; [reflexivity|].
  cbn [List.length initialState s_errors s_validRecords app] in He, Hv.
  set (st := perRow (first :: rest) 0 initialState) in *.
  destruct (groupByEmployee (s_validRecords st)) as [g|m] eqn:Hg; [|discriminate].
  injection H as <-. cbn [validRecords errors invalidRecords valid].
  exists g. split; [apply groupByEmployee_spec; exact Hg|].
  rewrite <- He, <- Hv. repeat split; reflexivity.
Qed.

(** X14.  When validateAndNormalize returns, every row of the file is
    either in validRecords or the subject of exactly one row entry of
    errors; invalidRecords is the number of entries of errors (row
    entries and employee entries alike, not the number of rejected
    rows), and valid holds exactly when errors is empty. *)
Theorem result_accounting (records : list Row) (r : ParseResult) :
  validate records = Ok r ->
  (List.length (validRecords r) + List.length (rowNumbers (errors r))
   = List.length records)%nat
  /\ invalidRecords r
     = (List.length (rowNumbers (errors r))
        + List.length (employeeEntries (errors r)))%nat
  /\ invalidRecords r = List.length (errors r)
  /\ (valid r = true <-> errors r = []).
Proof.
  intro H. destruct (validate_result records r H) as [g [_ [Hv [He [Hi Hb]]]]].
  pose proof (report_or_kept records []) as Hsum.
  destruct (report_rowNumbers records []) as [Hlen _].
  assert (Hrows : rowNumbers (errors r) = rowNumbers (reportFrom [] records)).
  { rewrite He. unfold rowNumbers. rewrite flat_map_app.
    fold (rowNumbers (volumeErrors g)). rewrite volumeErrors_rowNumbers.
    apply app_nil_r. }
  assert (Hsplit : forall l : list ErrorEntry,
             (List.length (rowNumbers l) + List.length (employeeEntries l)
              = List.length l)%nat).
  { induction l as [|e l IH]; [reflexivity|].
    unfold rowNumbers, employeeEntries in *. cbn [flat_map filter].
    destruct (rowOf e); cbn [app List.length]; lia. }
  split; [rewrite Hrows, Hlen, Hv, length_map; lia|].
  split; [rewrite Hi; symmetry; apply Hsplit|].
  split; [exact Hi|].
  rewrite Hb. destruct (errors r); cbn; split; intro; congruence.
Qed.

(** X15.  The row entries of errors come in the order of the file: their
    line numbers increase strictly (no line is reported twice) and lie
    between 2, the line after the header, and the number of records
    plus 1. *)
Theorem row_numbers_ordered (records : list Row) (r : ParseResult) :
  validate records = Ok r ->
  StronglySorted lt (rowNumbers (errors r))
  /\ Forall (fun n => (2 <= n <= List.length records + 1)%nat)
       (rowNumbers (errors r)).
Proof.
  intro H. destruct (validate_result records r H) as [g [_ [_ [He _]]]].
  destruct (report_rowNumbers records []) as [_ [Hrange Hsorted]].
  assert (Hrows : rowNumbers (errors r) = rowNumbers (reportFrom [] records)).
  { rewrite He. unfold rowNumbers. rewrite flat_map_app.
    fold (rowNumbers (volumeErrors g)). rewrite volumeErrors_rowNumbers.
    apply app_nil_r. }
  rewrite Hrows. split; [exact Hsorted|].
  eapply Forall_impl; [|exact Hrange]. cbn. intros n Hn. lia.
Qed.

End Accounting.

Lemma result_accounting_witness :
  exists r : ParseResult,
    UtcHost.validate twoDays = Ok r
    /\ invalidRecords r = List.length (errors r).
Proof.
  destruct twoDays_result as [r [Hr _]]. exists r. split; [exact Hr|].
  apply (result_accounting UtcHost.parseDate UtcHost.isWeekend UtcHost.newDate
           twoDays r Hr).
Defined.

Lemma row_numbers_ordered_witness :
  exists r : ParseResult,
    UtcHost.validate twoDays = Ok r
    /\ StronglySorted lt (rowNumbers (errors r)).
Proof.
  destruct twoDays_result as [r [Hr _]]. exists r. split; [exact Hr|].
  apply (row_numbers_ordered UtcHost.parseDate UtcHost.isWeekend UtcHost.newDate
           twoDays r Hr).
Defined.

(** ** What a valid record guarantees *)

Section WellFormed.

Variable parseDate : option string -> JsDate.
Variable isWeekend : Z -> bool.
Variable newDate : string -> JsDate.

Local Abbreviation fieldErrors := (FileParser.fieldErrors parseDate isWeekend newDate).
Local Abbreviation keptFrom := (ParserNotions.keptFrom parseDate isWeekend newDate).
Local Abbreviation validate := (validateAndNormalize parseDate isWeekend newDate).
Local Abbreviation normalize := (FileParser.normalize parseDate newDate).

Lemma kept_rows (records earlier : list Row) (row : Row) :
  In row (keptFrom earlier records) -> In row records /\ fieldErrors row = [].
Proof.
  revert earlier. induction records as [|r rest IH]; intros earlier H; [contradiction|].
  cbn [ParserNotions.keptFrom] in H. apply in_app_or in H. destruct H as [H|H].
  - destruct (verdict parseDate isWeekend newDate earlier r) eqn:E; [|contradiction].
    destruct H as [<-|[]]. split; [left; reflexivity|].
    unfold verdict in E. apply app_eq_nil in E. tauto.
  - destruct (IH _ H) as [Hin He]. split; [right; exact Hin | exact He].
Qed.

Lemma fieldErrors_nil (row : Row) :
  fieldErrors row = [] ->
  employeeIdErrors row = []
  /\ employeeNameErrors row = []
  /\ dateErrors isWeekend (parseDate (get row "date")) = []
  /\ statusErrors row = []
  /\ informedTimeErrors newDate row (parseDate (get row "date")) = []
  /\ departmentErrors row = []
  /\ managerEmailErrors row = [].
Proof.
  unfold FileParser.fieldErrors. intro H.
  repeat (apply app_eq_nil in H; destruct H as [? H]). tauto.
Qed.

Lemma requiredField_nil (v : option string) (limit : nat) (required tooLong : string) :
  requiredField v limit required tooLong = [] ->
  exists s : string,
    v = Some s /\ trim s <> "" /\ (String.length s <= limit)%nat.
Proof.
  unfold requiredField.
  destruct v as [s|]; cbn [falsy text]; [|discriminate].
  destruct (String.eqb s "" || String.eqb (trim s) "") eqn:E; [discriminate|].
  apply orb_false_iff in E. destruct E as [_ E]. apply String.eqb_neq in E.
  destruct (Nat.ltb limit (String.length s)) eqn:El; [discriminate|].
  apply Nat.ltb_ge in El. intros _. exists s. tauto.
Qed.

(** X18.  Every record of validRecords is the normalized form of a row
    of the file that passed every field check: its date parsed and is no
    weekend day, its status is one of the four, its employee id, name
    and department are not blank and within 20, 100 and 50 characters
    before trimming, its manager email matches the pattern; a planned
    leave carries an informed time that is not after the leave date, and
    an unplanned leave one that is at most 24 hours away from it. *)
Theorem valid_records_wellformed (records : list Row) (r : ParseResult)
    (v : ValidRecord) :
  validate records = Ok r ->
  In v (validRecords r) ->
  exists row : Row,
    In row records /\ v = normalize row
    /\ (exists t : Z, date v = DateOf t /\ isWeekend t = false)
    /\ includes VALID_STATUSES (status v) = true
    /\ (exists s, get row "employee_id" = Some s /\ employeeId v = trim s
                  /\ trim s <> "" /\ (String.length s <= 20)%nat)
    /\ (exists s, get row "employee_name" = Some s /\ trim s <> ""
                  /\ (String.length s <= 100)%nat)
    /\ (exists s, get row "department" = Some s /\ trim s <> ""
                  /\ (String.length s <= 50)%nat)
    /\ (exists s, get row "manager_email" = Some s /\ emailRegexTest s = true)
    /\ (status v = "Planned Leave" ->
        exists informed t : Z,
          informedTime v = Some (DateOf informed) /\ date v = DateOf t
          /\ (informed <= t)%Z)
    /\ (status v = "Unplanned Leave" ->
        exists informed t : Z,
          informedTime v = Some (DateOf informed) /\ date v = DateOf t
          /\ (Z.abs (t - informed) <= 24 * (1000 * 60 * 60))%Z).
Proof.
  intros Hr Hv.
  destruct (validate_result parseDate isWeekend newDate records r Hr)
    as [g [_ [Hvalid _]]].
  rewrite Hvalid in Hv. apply in_map_iff in Hv. destruct Hv as [row [<- Hrow]].
  apply kept_rows in Hrow. destruct Hrow as [Hin Hnil].
  apply fieldErrors_nil in Hnil.
  destruct Hnil as [Hid [Hname [Hdate [Hstatus [Hinf [Hdep Hmail]]]]]].
  exists row. split; [exact Hin|]. split; [reflexivity|].
  cbn [FileParser.normalize date status employeeId informedTime].
  unfold dateErrors in Hdate.
  destruct (parseDate (get row "date")) as [t|] eqn:Ed; [|discriminate].
  destruct (isWeekend t) eqn:Ew; [discriminate|].
  split; [exists t; split; [reflexivity | exact Ew]|].
  unfold statusErrors in Hstatus.
  destruct (get row "status") as [st|] eqn:Es; [|discriminate].
  destruct (includes VALID_STATUSES st) eqn:Ev; [|discriminate].
  cbn [text]. split; [exact Ev|].
  apply requiredField_nil in Hid. destruct Hid as [sid [Hsid [Hid1 Hid2]]].
  apply requiredField_nil in Hname. destruct Hname as [sn [Hsn [Hn1 Hn2]]].
  apply requiredField_nil in Hdep. destruct Hdep as [sd [Hsd [Hd1 Hd2]]].
  split; [exists sid; rewrite Hsid; cbn [text]; tauto|].
  split; [exists sn; tauto|]. split; [exists sd; tauto|].
  unfold managerEmailErrors in Hmail.
  destruct (get row "manager_email") as [sm|] eqn:Em; cbn [falsy text] in Hmail;
    [|discriminate].
  destruct (String.eqb sm "" || negb (emailRegexTest sm)) eqn:Eb; [discriminate|].
  apply orb_false_iff in Eb. destruct Eb as [_ Eb]. apply negb_false_iff in Eb.
  split; [exists sm; split; [reflexivity | exact Eb]|].
  unfold informedTimeErrors, statusIs in Hinf. rewrite Es in Hinf.
  split.
  - intros ->. cbn [String.eqb Ascii.eqb Bool.eqb orb andb] in Hinf.
    destruct (falsy (get row "informed_time")); [discriminate|].
    destruct (newDate (text (get row "informed_time"))) as [informed|];
      [|discriminate].
    exists informed, t. split; [reflexivity|]. split; [reflexivity|].
    cbn [dateGt] in Hinf. destruct (t <? informed)%Z eqn:E; [discriminate|].
    apply Z.ltb_ge in E. exact E.
  - intros ->. cbn [String.eqb Ascii.eqb Bool.eqb orb andb] in Hinf.
    destruct (falsy (get row "informed_time")); [discriminate|].
    destruct (newDate (text (get row "informed_time"))) as [informed|];
      [|discriminate].
    exists informed, t. split; [reflexivity|]. split; [reflexivity|].
    destruct (exceeds24 (hoursBetween (DateOf t) informed)) eqn:E; [discriminate|].
    destruct (Z_lt_le_dec (24 * (1000 * 60 * 60)) (Z.abs (t - informed)))
      as [Hlt|Hle]; [|exact Hle].
    apply exceeds24_spec in Hlt. rewrite Hlt in E. discriminate.
Qed.

End WellFormed.

Lemma valid_records_wellformed_witness :
  exists r : ParseResult,
    UtcHost.validate twoDays = Ok r
    /\ forall v : ValidRecord, In v (validRecords r) ->
         includes VALID_STATUSES (status v) = true.
Proof.
  destruct twoDays_result as [r [Hr _]]. exists r. split; [exact Hr|].
  intros v Hv.
  destruct (valid_records_wellformed UtcHost.parseDate UtcHost.isWeekend
              UtcHost.newDate twoDays r v Hr Hv) as [row [_ [_ [_ [H _]]]]].
  exact H.
Defined.

End ParserMore.
